(** * mbdataset.client: the request-resolution state machine

    A shallow embedding of [src/mbdataset/client.py]: the retrying
    transport [Client._fetch], the submit / poll / fetch protocol
    [Client._runOnJobQueue], the entry point [Client.query] and the typed
    wrapper [Client.asProtobuf].

    The Python code is a set of asynchronous context managers.  [_fetch],
    [_runOnJobQueue] and [query] are the part of each one that runs up
    to its [yield], that is, the computation that produces the response
    handed over (or raises); none of the three does anything after its
    [yield] but pass on what is thrown in.  [with_query] is the whole
    statement [async with client.query(params) as response: block], with
    the caller's block run at the [yield] of [query], inside its [try],
    as [contextlib] does.  Every network call,
    sleep and log line is recorded, in order, in a trace; the remote side
    is an arbitrary deterministic function of that trace and of the
    request.  The caller's [params] dictionary is one shared object of
    the world, so that stores to it are seen by everyone holding it.
    Python's [str], the HTTP library and the protobuf decoder are taken
    as parameters. *)

From Stdlib Require Import ZArith Ascii String List Bool Lia.
From stdpp Require Import base option list strings pretty gmap.

Local Open Scope string_scope.
Local Open Scope list_scope.
Local Open Scope Z_scope.

(** ** Values decoded from JSON

    [response.json()] and the caller's [params] are Python values built
    from JSON: [None], booleans, numbers, strings, lists and dicts with
    string keys.  Non-integer numbers are kept by their literal. *)

#[local] Set Warnings "-register-all".

Inductive jvalue : Type :=
  | JNull
  | JBool (b : bool)
  | JInt (z : Z)
  | JFloat (literal : string)
  | JStr (s : string)
  | JList (l : list jvalue)
  | JDict (d : gmap string jvalue).

(** Exceptions the modelled code can raise. *)
Inductive exn : Type :=
  | ApiError (message : jvalue)
  | UnexpectedError (content : string)
      (* Exception("API returned unexpected error", response.content) *)
  | KeyError (key : string)
  | TypeError
  | JsonDecodeError
      (* raised by response.json() on a body that is not JSON *)
  | DecodeError
      (* raised by the protobuf decoder on bytes it cannot parse *)
  | ClientError (detail : string)
      (* raised by session.request itself: connection refused, reset, ... *)
  | RecursionError
      (* the interpreter's answer to a recursion deeper than it allows *)
  | RuntimeError (msg : string).
      (* raised by contextlib on a generator that does not keep to the
         protocol of a context manager *)

Inductive result (A : Type) : Type :=
  | Ok (a : A)
  | Raise (e : exn).
Arguments Ok {A} a.
Arguments Raise {A} e.

(** [v[key]] for a string [key]: a dict looks the key up and raises
    [KeyError] when it is absent; every other JSON value raises
    [TypeError] (lists and strings want integer indices, the rest is not
    subscriptable). *)
Definition getitem (v : jvalue) (key : string) : result jvalue :=
  match v with
  | JDict d =>
      match d !! key with
      | Some x => Ok x
      | None => Raise (KeyError key)
      end
  | _ => Raise TypeError
  end.



(** [v == s] and [v != s] for a string literal [s]. *)
Definition py_eq_str (v : jvalue) (s : string) : bool :=
  match v with
  | JStr s' => String.eqb s' s
  | _ => false
  end.

(** ** Configuration, requests, responses *)

Record ClientConfig : Type := {
  statusUrl : string;          (* following queue id *)
  queryUrl : string;           (* following api key *)
  resultUrl : string;          (* following query id *)
  httpMaxRetryCount : Z;
  apikey : string
}.

(** [ClientConfig.__init__] *)
Definition ClientConfig_init (key : string) : ClientConfig := {|
  statusUrl := "http://mystaging.meteoblue.com/queue/status/%s";
  queryUrl := "http://mystaging.meteoblue.com/dataset/query?apikey=%s";
  resultUrl := "http://queueresults.meteoblue.com/%s";
  httpMaxRetryCount := 5;
  apikey := key
|}.

(** [Client.__init__]: all a client holds is its configuration. *)
Definition Client_init (apikey : string) : ClientConfig :=
  ClientConfig_init apikey.

(** [template % arg] for a template with one [%s]: the first [%s] is
    replaced by the (already stringified) argument. *)
Fixpoint pct_s (template arg : string) : string :=
  match template with
  | EmptyString => EmptyString
  | String c rest =>
      match rest with
      | String c' rest' =>
          if (Ascii.eqb c "%"%char && Ascii.eqb c' "s"%char)%bool
          then arg ++ rest'
          else String c (pct_s rest arg)
      | EmptyString => template
      end
  end.

(** What [session.request(method, url, json=json)] puts on the wire. *)
Record request : Type := {
  req_method : string;
  req_url : string;
  req_json : option jvalue
}.

(** An [aiohttp] response: its status, its raw body, and what
    [response.json()] decodes the body to ([None] when it is not JSON). *)
Record response : Type := {
  status : Z;
  content : string;
  json_body : option jvalue
}.

(** [await response.json()] *)
Definition response_json (r : response) : result jvalue :=
  match json_body r with
  | Some j => Ok j
  | None => Raise JsonDecodeError
  end.

(** ** The world: the caller's dictionary and the trace of effects *)

Inductive level : Type := DEBUG | INFO | ERROR.

Inductive event : Type :=
  | Request (r : request)
  | Sleep (seconds : Z)
  | Log (lvl : level) (msg : string).

Inductive net_outcome : Type :=
  | Responded (r : response)
  | Failed (detail : string).

(** [params] is the one dictionary object the caller passed in: the
    client functions all hold a reference to it, so a store to it by one
    of them is seen by the others and by the caller afterwards. *)
Record world : Type := {
  params : gmap string jvalue;
  trace : list event
}.

Definition emit (e : event) (w : world) : world :=
  {| params := params w; trace := trace w ++ [e] |}.

(** [logging.debug], [logging.info], [logging.error] *)
Definition log (lvl : level) (msg : string) (w : world) : world :=
  emit (Log lvl msg) w.

(** [await asyncio.sleep(seconds)] *)
Definition sleep (seconds : Z) (w : world) : world :=
  emit (Sleep seconds) w.

(** [params[key] = v] *)
Definition setitem (key : string) (v : jvalue) (w : world) : world :=
  {| params := <[key := v]> (params w); trace := trace w |}.

(** The requests of a trace, in the order they were issued. *)
Fixpoint requests (t : list event) : list request :=
  match t with
  | [] => []
  | Request r :: t' => r :: requests t'
  | _ :: t' => requests t'
  end.

(** The sleeps of a trace, in order. *)
Fixpoint sleeps (t : list event) : list Z :=
  match t with
  | [] => []
  | Sleep s :: t' => s :: sleeps t'
  | _ :: t' => sleeps t'
  end.

(** How many job-queue runs a trace starts: each run announces itself
    with the line [logging.info("Starting job on queue")], the first
    statement of [_runOnJobQueue]. *)
Fixpoint job_queue_runs (t : list event) : nat :=
  match t with
  | [] => 0%nat
  | Log INFO msg :: t' =>
      ((if String.eqb msg "Starting job on queue" then 1 else 0)
       + job_queue_runs t')%nat
  | _ :: t' => job_queue_runs t'
  end.

(** ** Computations

    [M A] is a computation that ends: it returns a value or raises, and
    leaves a world.  [D A] may also run for ever; it is given fuel for
    the iterations of its [while True] loop and answers [None] when the
    fuel does not suffice, together with the world reached so far. *)

Definition M (A : Type) : Type := world -> result A * world.
Definition D (A : Type) : Type := world -> option (result A) * world.

Definition ret {A} (a : A) : M A := fun w => (Ok a, w).
Definition raise {A} (e : exn) : M A := fun w => (Raise e, w).
Definition bind {A B} (m : M A) (k : A -> M B) : M B :=
  fun w =>
    match m w with
    | (Ok a, w') => k a w'
    | (Raise e, w') => (Raise e, w')
    end.
(** A statement that cannot fail. *)
Definition exec (f : world -> world) : M unit := fun w => (Ok tt, f w).
(** A pure expression that may raise. *)
Definition eval {A} (r : result A) : M A := fun w => (r, w).
(** Reading the caller's dictionary through the reference held. *)
Definition get_params : M (gmap string jvalue) := fun w => (Ok (params w), w).

Declare Scope prog_scope.
Delimit Scope prog_scope with prog.
Notation "'let!' x ':=' m 'in' k" := (bind m (fun x => k))
  (at level 10, x name, m at level 100, k at level 200) : prog_scope.
Notation "'do!' m 'in' k" := (bind m (fun _ => k))
  (at level 10, m at level 100, k at level 200) : prog_scope.

(** One pass through the body of a [while True]: leave by [break], or
    fall off the end and go round again. *)
Inductive ctl : Type := Break | Continue.

Fixpoint while_true (fuel : nat) (body : M ctl) : D unit :=
  fun w =>
    match fuel with
    | O => (None, w)
    | S fuel' =>
        match body w with
        | (Raise e, w') => (Some (Raise e), w')
        | (Ok Break, w') => (Some (Ok tt), w')
        | (Ok Continue, w') => while_true fuel' body w'
        end
    end.

(** The message by which the API asks for the job queue. *)
Definition sentinel : string := "This job must be executed on a job-queue".

(** ** Remote sides and values used in the examples *)

(** A remote side that answers the n-th request of the session with the
    n-th entry of a script, whatever the request is, and refuses the
    connection once the script is used up. *)
Definition scripted (script : list net_outcome)
  : list event -> request -> net_outcome :=
  fun t _ =>
    match script !! length (requests t) with
    | Some o => o
    | None => Failed "connection refused"
    end.

(** A remote side that gives the same answer to every request. *)
Definition always (o : net_outcome) : list event -> request -> net_outcome :=
  fun _ _ => o.

(** [str] on strings, integers, booleans and [None]; lists and dicts,
    which the examples do not print, are abbreviated. *)
Definition str_simple (v : jvalue) : string :=
  match v with
  | JNull => "None"
  | JBool true => "True"
  | JBool false => "False"
  | JInt z => pretty z
  | JFloat literal => literal
  | JStr s => s
  | JList _ => "[...]"
  | JDict _ => "{...}"
  end.

Definition http (st : Z) (body : string) (j : option jvalue) : net_outcome :=
  Responded {| status := st; content := body; json_body := j |}.

(** A 200 answer whose body is a JSON object. *)
Definition ok_json (d : gmap string jvalue) : net_outcome :=
  http 200 "<json>" (Some (JDict d)).

(** The 400 answer that asks for the job queue. *)
Definition must_queue : net_outcome :=
  http 400 "<json>"
    (Some (JDict {[ "error_message" := JStr sentinel ]})).

Definition status_is (s : string) : net_outcome :=
  ok_json {[ "status" := JStr s ]}.

Definition world0 : world :=
  {| params := {[ "domain" := JStr "NEMSGLOBAL" ]}; trace := [] |}.

Definition cfg0 : ClientConfig := ClientConfig_init "xxxxx".

Definition query_url : string :=
  "http://mystaging.meteoblue.com/dataset/query?apikey=xxxxx".

Definition busy : net_outcome := http 503 "Service Unavailable" None.

Definition bad_request (message : string) : net_outcome :=
  http 400 "<json>" (Some (JDict {[ "error_message" := JStr message ]})).



(** The direct query is refused with the sentinel, and then the job of
    [queue_server] below runs with two polls finding it running. *)
Definition escalating_server : list event -> request -> net_outcome :=
  scripted [ must_queue; ok_json {[ "id" := JInt 42 ]};
             status_is "running"; status_is "running"; status_is "finished";
             http 200 "result" None ].

(** The job is accepted, and its first poll reports an error. *)
Definition failing_job_server : list event -> request -> net_outcome :=
  scripted [ must_queue; ok_json {[ "id" := JInt 42 ]};
             ok_json {[ "status" := JStr "error";
                        "error_message" := JStr "Out of memory" ]} ].

Definition not_found : net_outcome := http 404 "Not Found" None.

Definition rows : response :=
  {| status := 200; content := "rows"; json_body := None |}.

(** The direct query is answered at once; a job submitted after that is
    accepted, found finished at its first poll, and its result served. *)
Definition served_then_queue_server
  : list event -> request -> net_outcome :=
  scripted [ Responded rows; ok_json {[ "id" := JInt 42 ]};
             status_is "finished"; http 200 "result" None ].

(** A caller's block that raises [ApiError] with the sentinel message,
    as a query made inside the block does when its own job-queue run is
    refused with it. *)
Definition block_raising_sentinel (response : response) : M unit :=
  raise (ApiError (JStr sentinel)).

(** A job that is accepted and then found deleted, and one that is
    accepted and then found in error. *)
Definition deleted_job_server : list event -> request -> net_outcome :=
  scripted [ ok_json {[ "id" := JInt 42 ]}; status_is "deleted" ].

Definition failed_job : gmap string jvalue :=
  {[ "status" := JStr "error"; "error_message" := JStr "Out of memory" ]}.

Definition errored_job_server : list event -> request -> net_outcome :=
  scripted [ ok_json {[ "id" := JInt 42 ]}; ok_json failed_job ].

Definition result_url : string := "http://queueresults.meteoblue.com/42".

Definition status_url : string :=
  "http://mystaging.meteoblue.com/queue/status/42".

(** A job that is accepted with id 42, found pending twice, then
    finished, and whose result is then served. *)
Definition queue_server : list event -> request -> net_outcome :=
  scripted [ ok_json {[ "id" := JInt 42 ]};
             status_is "pending"; status_is "pending"; status_is "finished";
             http 200 "result" None ].

(** ** The client *)

Section Client.

(** [str(v)], which is also what [%s] prints for [v]. *)
Variable py_str : jvalue -> string.

(** The remote side: what comes back for a request, given everything
    the client has done so far. *)
Variable server : list event -> request -> net_outcome.

(** [self._config] *)
Variable cfg : ClientConfig.

(** [async with session.request(method, url, json=json) as response] *)
Definition session_request (method url : string) (json : option jvalue)
  : M response :=
  fun w =>
    let r := {| req_method := method; req_url := url; req_json := json |} in
    match server (trace w) r with
    | Responded resp => (Ok resp, emit (Request r) w)
    | Failed detail => (Raise (ClientError detail), emit (Request r) w)
    end.

(** [Client._fetch], lines 50-87, with the method it calls on a retry
    as a parameter. *)
Definition _fetch_body
    (_fetch : string -> string -> Z -> option jvalue -> M response)
    (method url : string) (retryCount : Z) (json : option jvalue)
  : M response :=
  (do! exec (log DEBUG ("Getting url " ++ method ++ " " ++ url)) in
   let! response := session_request method url json in
   (* return if successful *)
   if ((200 <=? status response) && (status response <=? 299))%Z
   then ret response
   else
     (* retry mechanism *)
     let shouldRetry := (retryCount <? httpMaxRetryCount cfg)%Z in
     (* check if request timed out or backend threw an error *)
     if shouldRetry
        && ((status response =? 408)
            || ((500 <=? status response) && (status response <=? 599)))%Z
     then
       do! exec (sleep 1) in
       _fetch method url (retryCount + 1) None
     else
       (* meteoblue APIs return a JSON encoded error message *)
       if (status response =? 400)%Z
       then
         let! json := eval (response_json response) in
         let! message := eval (getitem json "error_message") in
         do! exec (log DEBUG
                     ("API returned error message: " ++ py_str message)) in
         raise (ApiError message)
       else
         do! exec (log ERROR
                     ("API returned unexpected error: " ++ content response)) in
         raise (UnexpectedError (content response)))%prog.

(** The recursion of [_fetch] is on [retryCount], which counts up to
    [httpMaxRetryCount]; [depth] bounds the nesting of the calls. *)
Fixpoint _fetch_rec (depth : nat)
  : string -> string -> Z -> option jvalue -> M response :=
  _fetch_body
    match depth with
    | S depth' => _fetch_rec depth'
    | O => fun _ _ _ _ => raise RecursionError
    end.

(** [Client._fetch]: the depth it starts with is one the retries cannot
    use up, so that it is a fixed point of [_fetch_body]
    (lemma [_fetch_unfold]). *)
Definition _fetch (method url : string) (retryCount : Z)
    (json : option jvalue) : M response :=
  _fetch_rec (Z.to_nat (httpMaxRetryCount cfg - retryCount))
    method url retryCount json.

(** [Client._runOnJobQueue], lines 98-107: start the job on the
    queue and take its id from the answer. *)
Definition _runOnJobQueue_submit : M jvalue :=
  (do! exec (log INFO "Starting job on queue") in
   do! exec (setitem "runOnJobQueue" (JBool true)) in
   let url := pct_s (queryUrl cfg) (apikey cfg) in
   let! params := get_params in
   let! response := _fetch "POST" url 0 (Some (JDict params)) in
   let! responseJson := eval (response_json response) in
   let! jobId := eval (getitem responseJson "id") in
   do! exec (log INFO ("Waiting until job has finished (job id "
                       ++ py_str jobId ++ ")")) in
   ret jobId)%prog.

(** Lines 110-122: the body of the [while True] loop. *)
Definition _runOnJobQueue_poll (statusUrl : string) (jobId : jvalue)
  : M ctl :=
  (let! response := _fetch "GET" statusUrl 0 None in
   let! json := eval (response_json response) in
   let! status := eval (getitem json "status") in
   do! exec (log DEBUG ("Job status is " ++ py_str status)) in
   if py_eq_str status "finished" then ret Break
   else if py_eq_str status "deleted"
   then raise (ApiError (JStr "Job was canceled"))
   else if py_eq_str status "error"
   then
     let! message := eval (getitem json "error_message") in
     raise (ApiError message)
   else
     do! exec (log INFO ("Waiting 5 seconds for job to complete. Status: "
                         ++ py_str status ++ ", job id " ++ py_str jobId)) in
     do! exec (sleep 5) in
     ret Continue)%prog.

(** Lines 124-128: fetch the job queue result. *)
Definition _runOnJobQueue_result (jobId : jvalue) : M response :=
  (let resultUrl := pct_s (resultUrl cfg) (py_str jobId) in
   do! exec (log DEBUG ("Fetching result for job id " ++ py_str jobId)) in
   _fetch "GET" resultUrl 0 None)%prog.

(** [Client._runOnJobQueue], lines 90-128. *)
Definition _runOnJobQueue (fuel : nat) : D response :=
  fun w =>
    match _runOnJobQueue_submit w with
    | (Raise e, w1) => (Some (Raise e), w1)
    | (Ok jobId, w1) =>
        let statusUrl := pct_s (statusUrl cfg) (py_str jobId) in
        match while_true fuel (_runOnJobQueue_poll statusUrl jobId) w1 with
        | (None, w2) => (None, w2)
        | (Some (Raise e), w2) => (Some (Raise e), w2)
        | (Some (Ok _), w2) =>
            match _runOnJobQueue_result jobId w2 with
            | (r, w3) => (Some r, w3)
            end
        end
    end.

(** [Client.query], lines 131-150. *)
Definition query (fuel : nat) : D response :=
  fun w =>
    (* Try to run the job directly *)
    let url := pct_s (queryUrl cfg) (apikey cfg) in
    match _fetch "POST" url 0 (Some (JDict (params w))) w with
    | (Ok response, w1) => (Some (Ok response), w1)
    | (Raise (ApiError message), w1) =>
        (* Run on a job queue in case the api throws the error *)
        if negb (py_eq_str message "This job must be executed on a job-queue")
        then (Some (Raise (ApiError message)), w1)
        else _runOnJobQueue fuel w1
    | (Raise e, w1) => (Some (Raise e), w1)
    end.

(** [Client.asProtobuf], lines 152-165.  The protobuf message type and
    its decoder ([Dataset_pb2.DatasetApiProtobuf().ParseFromString]) are
    external, and passed in. *)
Definition asProtobuf {DatasetApiProtobuf : Type}
    (ParseFromString : string -> option DatasetApiProtobuf) (fuel : nat)
  : D DatasetApiProtobuf :=
  fun w =>
    match query fuel (setitem "format" (JStr "protobuf") w) with
    | (None, w1) => (None, w1)
    | (Some (Raise e), w1) => (Some (Raise e), w1)
    | (Some (Ok response), w1) =>
        let data := content response in
        match ParseFromString data with
        | Some msg => (Some (Ok msg), w1)
        | None => (Some (Raise DecodeError), w1)
        end
    end.

(** The clause [except ApiError as error] of [query], lines 145-150.
    [yielded] tells whether the generator has already handed over a
    response, that is, whether the error was thrown in at its first
    [yield] by the caller's block: [contextlib] stops a generator that
    then yields a second time with a [RuntimeError]. *)
Definition query_except {A} (fuel : nat) (yielded : bool)
    (block : response -> M A) (message : jvalue) : D A :=
  fun w =>
    if negb (py_eq_str message "This job must be executed on a job-queue")
    then (Some (Raise (ApiError message)), w)
    else
      match _runOnJobQueue fuel w with
      | (None, w1) => (None, w1)
      | (Some (Raise e), w1) => (Some (Raise e), w1)
      | (Some (Ok response), w1) =>
          if yielded
          then (Some (Raise (RuntimeError
                               "generator didn't stop after athrow()")), w1)
          else match block response w1 with
               | (r, w2) => (Some r, w2)
               end
      end.

(** [async with client.query(params) as response: block]: lines 131-150
    of [Client.query] together with the caller's block.  The block runs
    where the generator is suspended; what it raises is thrown in
    there, and the first [yield] is inside the [try]. *)
Definition with_query {A} (fuel : nat) (block : response -> M A) : D A :=
  fun w =>
    (* Try to run the job directly *)
    let url := pct_s (queryUrl cfg) (apikey cfg) in
    match _fetch "POST" url 0 (Some (JDict (params w))) w with
    | (Ok response, w1) =>
        match block response w1 with
        | (Ok a, w2) => (Some (Ok a), w2)
        | (Raise (ApiError message), w2) =>
            query_except fuel true block message w2
        | (Raise e, w2) => (Some (Raise e), w2)
        end
    | (Raise (ApiError message), w1) =>
        query_except fuel false block message w1
    | (Raise e, w1) => (Some (Raise e), w1)
    end.

(** The events that act on the outside: requests and sleeps, in the
    order of the trace, without the log lines. *)
Fixpoint actions (t : list event) : list event :=
  match t with
  | [] => []
  | Log _ _ :: t' => actions t'
  | e :: t' => e :: actions t'
  end.

(** Requests sent one after the other with a sleep of one second
    between each two of them. *)
Fixpoint paced (rs : list request) : list event :=
  match rs with
  | [] => []
  | r :: rs' =>
      match rs' with
      | [] => [Request r]
      | _ :: _ => Request r :: Sleep 1 :: paced rs'
      end
  end.

(** *** Vocabulary of the statements *)

(** The request an attempt puts on the wire. *)
Definition request_of (method url : string) (json : option jvalue)
  : request :=
  {| req_method := method; req_url := url; req_json := json |}.

(** What the remote side answers to an attempt started in [w]. *)
Definition answer (method url : string) (json : option jvalue) (w : world)
  : net_outcome :=
  server (trace (log DEBUG ("Getting url " ++ method ++ " " ++ url) w))
    (request_of method url json).

(** The world once the attempt has logged its line and sent its
    request. *)
Definition attempted (method url : string) (json : option jvalue)
    (w : world) : world :=
  emit (Request (request_of method url json))
    (log DEBUG ("Getting url " ++ method ++ " " ++ url) w).

(** The three statuses that end the polling. *)
Definition terminal (status : jvalue) : bool :=
  py_eq_str status "finished" || py_eq_str status "deleted"
  || py_eq_str status "error".

(** A poll started in [w] gets the JSON body [json] with the entry
    [status], and has logged it in [w']. *)
Definition poll_returns (statusUrl : string) (w : world)
    (json status : jvalue) (w' : world) : Prop :=
  exists response w1,
    _fetch "GET" statusUrl 0 None w = (Ok response, w1)
    /\ json_body response = Some json
    /\ getitem json "status" = Ok status
    /\ w' = log DEBUG ("Job status is " ++ py_str status) w1.

(** The world after the wait that follows a poll logged in [w']. *)
Definition waited (status jobId : jvalue) (w' : world) : world :=
  sleep 5
    (log INFO ("Waiting 5 seconds for job to complete. Status: "
               ++ py_str status ++ ", job id " ++ py_str jobId) w').

(** [n] consecutive cycles of a poll with a status that is not
    terminal followed by the 5 second wait lead from [w] to [w']. *)
Inductive poll_sleep_cycles (statusUrl : string) (jobId : jvalue)
  : nat -> world -> world -> Prop :=
  | cycles_O w : poll_sleep_cycles statusUrl jobId 0 w w
  | cycles_S n w json status w1 w' :
      poll_returns statusUrl w json status w1 ->
      terminal status = false ->
      poll_sleep_cycles statusUrl jobId n (waited status jobId w1) w' ->
      poll_sleep_cycles statusUrl jobId (S n) w w'.

(** A poll started in [w] is aborted by its transport call. *)
Definition poll_transport_fails (statusUrl : string) (w : world) : Prop :=
  exists e w1, _fetch "GET" statusUrl 0 None w = (Raise e, w1).

(** A poll started in [w] gets an answer that is not a status
    response: its body is not JSON, or has no entry [status]. *)
Definition poll_malformed (statusUrl : string) (w : world) : Prop :=
  exists response w1,
    _fetch "GET" statusUrl 0 None w = (Ok response, w1)
    /\ (json_body response = None
        \/ exists json e, json_body response = Some json
                         /\ getitem json "status" = Raise e).

(** The loop of a run started in [w] comes to an end. *)
Definition loop_terminates (statusUrl : string) (jobId : jvalue)
    (w : world) : Prop :=
  exists fuel,
    fst (while_true fuel (_runOnJobQueue_poll statusUrl jobId) w) <> None.

(** The world in which a poll started in [w] has logged its status. *)
Definition polled (statusUrl : string) (status : jvalue) (w : world)
  : world :=
  log DEBUG ("Job status is " ++ py_str status)
    (snd (_fetch "GET" statusUrl 0 None w)).

(** The events a computation adds: the dictionary is left alone, no
    job-queue run is announced, every request goes to [url] with
    [method], and every sleep lasts one second. *)
Definition adds (method url : string) (w w' : world) : Prop :=
  params w' = params w
  /\ exists evs,
       trace w' = trace w ++ evs
       /\ job_queue_runs evs = 0%nat
       /\ Forall (fun r => req_method r = method /\ req_url r = url)
            (requests evs)
       /\ Forall (fun s => s = 1) (sleeps evs).

(** Nothing is stored in the dictionary and no job-queue run is
    announced between [w] and [w']. *)
Definition quiet (w w' : world) : Prop :=
  params w' = params w
  /\ exists evs, trace w' = trace w ++ evs /\ job_queue_runs evs = 0%nat.

(** The world in which the submit phase sends its request. *)
Definition announced (w : world) : world :=
  setitem "runOnJobQueue" (JBool true) (log INFO "Starting job on queue" w).

(** The direct attempt of [query] started in [w]. *)
Definition direct (w : world) : result response * world :=
  _fetch "POST" (pct_s (queryUrl cfg) (apikey cfg)) 0
    (Some (JDict (params w))) w.

(** The 5 second waits of a trace. *)
Definition poll_waits (t : list event) : nat :=
  length (List.filter (fun s => s =? 5) (sleeps t)).

(** A poll started in [w] gets one of the three terminal statuses. *)
Definition poll_terminal (url : string) (w : world) : Prop :=
  exists json status w1,
    poll_returns url w json status w1 /\ terminal status = true.

(** The ways in which a poll does not lead to another one. *)
Definition poll_stops (url : string) (w : world) : Prop :=
  poll_terminal url w \/ poll_transport_fails url w \/ poll_malformed url w.

(** The loop ends only on a terminal status or a failure of the
    transport. *)
Definition ends_on_status_or_transport (url : string) (jobId : jvalue)
    (w : world) : Prop :=
  loop_terminates url jobId w
  <-> exists n w',
        poll_sleep_cycles url jobId n w w'
        /\ (poll_terminal url w' \/ poll_transport_fails url w').


(** The statuses [_fetch] retries: 408, and 500 to 599. *)
Definition retryable (st : Z) : Prop := st = 408 \/ 500 <= st <= 599.

(** Between [w] and [w'] events were only added, and every request
    among them went to [url] with [method]. *)
Definition sends (method url : string) (w w' : world) : Prop :=
  exists evs,
    trace w' = trace w ++ evs
    /\ Forall (fun r => req_method r = method /\ req_url r = url)
         (requests evs).

(** The remote side answers by a script: the n-th request of the
    session gets the n-th entry. *)
Definition follows_script (script : list net_outcome) : Prop :=
  forall t r, server t r = scripted script t r.

(** *** The transport *)

Ltac run := unfold bind, exec, eval, ret, raise, get_params; simpl.

Lemma session_request_eq method url json w :
  session_request method url json
    (log DEBUG ("Getting url " ++ method ++ " " ++ url) w)
  = match answer method url json w with
    | Responded resp => (Ok resp, attempted method url json w)
    | Failed detail => (Raise (ClientError detail), attempted method url json w)
    end.
Proof. reflexivity. Qed.

(** [_fetch] is the method of the source: it satisfies the recursive
    equation of lines 50-87, and the bound on the depth is never hit. *)
Lemma _fetch_unfold method url retryCount json w :
  _fetch method url retryCount json w
  = _fetch_body _fetch method url retryCount json w.
Proof.
  unfold _fetch.
  destruct (Z.to_nat (httpMaxRetryCount cfg - retryCount)) as [|d] eqn:Hd;
    simpl; unfold _fetch_body; run;
    destruct (session_request _ _ _ _) as [[resp|e] w1]; try reflexivity;
    destruct (_ && _)%bool; try reflexivity;
    destruct (retryCount <? httpMaxRetryCount cfg) eqn:Hlt;
    simpl; try reflexivity.
  - apply Z.ltb_lt in Hlt. lia.
  - apply Z.ltb_lt in Hlt.
    destruct (_ || _)%bool; try reflexivity.
    replace (Z.to_nat (httpMaxRetryCount cfg - (retryCount + 1))) with d
      by lia.
    reflexivity.
Qed.

(** A 2xx answer is returned at once. *)
Lemma _fetch_success method url retryCount json w resp :
  answer method url json w = Responded resp ->
  200 <= status resp <= 299 ->
  _fetch method url retryCount json w
  = (Ok resp, attempted method url json w).
Proof.
  intros Ha Hs. rewrite _fetch_unfold. unfold _fetch_body. run.
  rewrite session_request_eq, Ha.
  replace (200 <=? status resp) with true by (symmetry; apply Z.leb_le; lia).
  replace (status resp <=? 299) with true by (symmetry; apply Z.leb_le; lia).
  reflexivity.
Qed.

(** A connection that fails ends the call. *)
Lemma _fetch_failed method url retryCount json w detail :
  answer method url json w = Failed detail ->
  _fetch method url retryCount json w
  = (Raise (ClientError detail), attempted method url json w).
Proof.
  intros Ha. rewrite _fetch_unfold. unfold _fetch_body. run.
  rewrite session_request_eq, Ha. reflexivity.
Qed.

(** 408 and 5xx below the retry limit: wait a second, call again. *)
Lemma _fetch_retry method url retryCount json w resp :
  answer method url json w = Responded resp ->
  status resp = 408 \/ 500 <= status resp <= 599 ->
  retryCount < httpMaxRetryCount cfg ->
  _fetch method url retryCount json w
  = _fetch method url (retryCount + 1) None
      (sleep 1 (attempted method url json w)).
Proof.
  intros Ha Hs Hlt. rewrite _fetch_unfold. unfold _fetch_body at 1. run.
  rewrite session_request_eq, Ha.
  replace (retryCount <? httpMaxRetryCount cfg) with true
    by (symmetry; apply Z.ltb_lt; lia).
  destruct Hs as [Hs|Hs].
  - rewrite Hs. reflexivity.
  - replace (200 <=? status resp) with true by (symmetry; apply Z.leb_le; lia).
    replace (status resp <=? 299) with false by (symmetry; apply Z.leb_gt; lia).
    replace (500 <=? status resp) with true by (symmetry; apply Z.leb_le; lia).
    replace (status resp <=? 599) with true by (symmetry; apply Z.leb_le; lia).
    simpl. rewrite orb_true_r. reflexivity.
Qed.

(** 408 and 5xx at or above the retry limit: the call fails. *)
Lemma _fetch_exhausted method url retryCount json w resp :
  answer method url json w = Responded resp ->
  status resp = 408 \/ 500 <= status resp <= 599 ->
  httpMaxRetryCount cfg <= retryCount ->
  _fetch method url retryCount json w
  = (Raise (UnexpectedError (content resp)),
     log ERROR ("API returned unexpected error: " ++ content resp)
       (attempted method url json w)).
Proof.
  intros Ha Hs Hge. rewrite _fetch_unfold. unfold _fetch_body. run.
  rewrite session_request_eq, Ha.
  replace (retryCount <? httpMaxRetryCount cfg) with false
    by (symmetry; apply Z.ltb_ge; lia).
  replace (status resp <=? 299) with false by (symmetry; apply Z.leb_gt; lia).
  replace (status resp =? 400) with false by (symmetry; apply Z.eqb_neq; lia).
  rewrite andb_false_r. reflexivity.
Qed.

(** 400: the answer is read as JSON and its [error_message] raised. *)
Lemma _fetch_400 method url retryCount json w resp :
  answer method url json w = Responded resp ->
  status resp = 400 ->
  _fetch method url retryCount json w
  = match response_json resp with
    | Raise e => (Raise e, attempted method url json w)
    | Ok body =>
        match getitem body "error_message" with
        | Raise e => (Raise e, attempted method url json w)
        | Ok message =>
            (Raise (ApiError message),
             log DEBUG ("API returned error message: " ++ py_str message)
               (attempted method url json w))
        end
    end.
Proof.
  intros Ha Hs. rewrite _fetch_unfold. unfold _fetch_body. run.
  rewrite session_request_eq, Ha, Hs. simpl. rewrite andb_false_r. simpl.
  destruct (response_json resp) as [body|e]; [|reflexivity].
  destruct (getitem body "error_message"); reflexivity.
Qed.

(** *** What a transport call leaves behind *)

Lemma requests_app t1 t2 : requests (t1 ++ t2) = requests t1 ++ requests t2.
Proof.
  induction t1 as [|[r|z|l m] t1 IH]; simpl; [reflexivity| |exact IH|exact IH].
  f_equal. exact IH.
Qed.

Lemma sleeps_app t1 t2 : sleeps (t1 ++ t2) = sleeps t1 ++ sleeps t2.
Proof.
  induction t1 as [|[r|z|l m] t1 IH]; simpl; [reflexivity|exact IH| |exact IH].
  f_equal. exact IH.
Qed.

Lemma job_queue_runs_app t1 t2 :
  job_queue_runs (t1 ++ t2) = (job_queue_runs t1 + job_queue_runs t2)%nat.
Proof.
  induction t1 as [|[r|z|l m] t1 IH]; simpl; try assumption; [reflexivity|].
  destruct l; try assumption. rewrite IH. lia.
Qed.

Lemma adds_refl method url w : adds method url w w.
Proof.
  split; [reflexivity|]. exists []. rewrite app_nil_r.
  repeat split; constructor.
Qed.

Lemma adds_trans method url w1 w2 w3 :
  adds method url w1 w2 -> adds method url w2 w3 -> adds method url w1 w3.
Proof.
  intros [Hp1 (e1 & Ht1 & Hj1 & Hr1 & Hs1)] [Hp2 (e2 & Ht2 & Hj2 & Hr2 & Hs2)].
  split; [congruence|]. exists (e1 ++ e2).
  rewrite Ht2, Ht1, <- app_assoc, job_queue_runs_app, requests_app, sleeps_app.
  repeat split; [lia| |]; apply Forall_app; split; assumption.
Qed.

Lemma adds_emit method url e w :
  job_queue_runs [e] = 0%nat ->
  Forall (fun r => req_method r = method /\ req_url r = url) (requests [e]) ->
  Forall (fun s => s = 1) (sleeps [e]) ->
  adds method url w (emit e w).
Proof. intros Hj Hr Hs. split; [reflexivity|]. exists [e]. auto. Qed.

Lemma adds_attempted method url json w :
  adds method url w (attempted method url json w).
Proof.
  unfold attempted, log.
  eapply adds_trans; apply adds_emit; simpl; auto.
Qed.

Lemma adds_log_fetch method url lvl msg w :
  (lvl = DEBUG \/ lvl = ERROR) -> adds method url w (log lvl msg w).
Proof.
  intros [->| ->]; apply adds_emit; simpl; auto.
Qed.

Lemma _fetch_rec_adds depth method url retryCount json w :
  adds method url w (snd (_fetch_rec depth method url retryCount json w)).
Proof.
  revert retryCount json w.
  induction depth as [|depth IH]; intros retryCount json w; simpl;
    unfold _fetch_body; run; rewrite session_request_eq;
    pose proof (adds_attempted method url json w) as Hatt;
    (destruct (answer method url json w) as [resp|detail];
     [|exact Hatt]);
    (destruct (_ && _)%bool; [exact Hatt|]);
    (destruct (_ && _)%bool;
     [| destruct (status resp =? 400);
        [ destruct (response_json resp) as [body|e]; [|exact Hatt];
          destruct (getitem body "error_message"); simpl; [|exact Hatt]
        | simpl ];
        (eapply adds_trans; [exact Hatt|]);
        apply adds_log_fetch; auto ]).
  - eapply adds_trans; [exact Hatt|]. apply adds_emit; simpl; auto.
  - eapply adds_trans; [exact Hatt|].
    eapply adds_trans; [|apply IH]. apply adds_emit; simpl; auto.
Qed.

Lemma _fetch_adds method url retryCount json w :
  adds method url w (snd (_fetch method url retryCount json w)).
Proof. apply _fetch_rec_adds. Qed.

(** *** What the phases of a job-queue run leave behind *)

Lemma quiet_refl w : quiet w w.
Proof. split; [reflexivity|]. exists []. rewrite app_nil_r. auto. Qed.

Lemma quiet_trans w1 w2 w3 : quiet w1 w2 -> quiet w2 w3 -> quiet w1 w3.
Proof.
  intros [Hp1 (e1 & Ht1 & Hj1)] [Hp2 (e2 & Ht2 & Hj2)].
  split; [congruence|]. exists (e1 ++ e2).
  rewrite Ht2, Ht1, <- app_assoc, job_queue_runs_app. split; [reflexivity|lia].
Qed.

Lemma quiet_emit e w : job_queue_runs [e] = 0%nat -> quiet w (emit e w).
Proof. intros H. split; [reflexivity|]. exists [e]. auto. Qed.

Lemma adds_quiet method url w w' : adds method url w w' -> quiet w w'.
Proof. intros [Hp (evs & Ht & Hj & _)]. split; [exact Hp|]. eauto. Qed.

Lemma _fetch_quiet method url retryCount json w :
  quiet w (snd (_fetch method url retryCount json w)).
Proof. eapply adds_quiet, _fetch_adds. Qed.

Lemma quiet_runs w w' :
  quiet w w' -> job_queue_runs (trace w') = job_queue_runs (trace w).
Proof.
  intros [_ (evs & -> & Hj)]. rewrite job_queue_runs_app. lia.
Qed.

Lemma _runOnJobQueue_poll_quiet statusUrl jobId w :
  quiet w (snd (_runOnJobQueue_poll statusUrl jobId w)).
Proof.
  unfold _runOnJobQueue_poll. run.
  pose proof (_fetch_quiet "GET" statusUrl 0 None w) as Hf.
  destruct (_fetch "GET" statusUrl 0 None w) as [[resp|e] w1]; simpl in *;
    [|exact Hf].
  destruct (response_json resp) as [body|e]; [|exact Hf].
  destruct (getitem body "status") as [st|e]; [|exact Hf].
  assert (Hl : quiet w (log DEBUG ("Job status is " ++ py_str st) w1))
    by (eapply quiet_trans; [exact Hf|]; apply quiet_emit; reflexivity).
  destruct (py_eq_str st "finished"); [exact Hl|].
  destruct (py_eq_str st "deleted"); [exact Hl|].
  destruct (py_eq_str st "error").
  - destruct (getitem body "error_message"); exact Hl.
  - simpl. eapply quiet_trans; [exact Hl|].
    eapply quiet_trans; apply quiet_emit; reflexivity.
Qed.

Lemma while_true_quiet fuel body w :
  (forall w0, quiet w0 (snd (body w0))) ->
  quiet w (snd (while_true fuel body w)).
Proof.
  intros Hb. revert w.
  induction fuel as [|fuel IH]; intros w; simpl; [apply quiet_refl|].
  pose proof (Hb w) as Hw.
  destruct (body w) as [[[|]|e] w1]; simpl in *; try exact Hw.
  eapply quiet_trans; [exact Hw|apply IH].
Qed.

Lemma _runOnJobQueue_result_quiet jobId w :
  quiet w (snd (_runOnJobQueue_result jobId w)).
Proof.
  unfold _runOnJobQueue_result. run.
  eapply quiet_trans; [|apply _fetch_quiet]. apply quiet_emit. reflexivity.
Qed.

Lemma _runOnJobQueue_submit_eq w :
  _runOnJobQueue_submit w
  = match _fetch "POST" (pct_s (queryUrl cfg) (apikey cfg)) 0
            (Some (JDict (<["runOnJobQueue" := JBool true]> (params w))))
            (announced w) with
    | (Raise e, w1) => (Raise e, w1)
    | (Ok response, w1) =>
        match response_json response with
        | Raise e => (Raise e, w1)
        | Ok responseJson =>
            match getitem responseJson "id" with
            | Raise e => (Raise e, w1)
            | Ok jobId =>
                (Ok jobId,
                 log INFO ("Waiting until job has finished (job id "
                           ++ py_str jobId ++ ")") w1)
            end
        end
    end.
Proof.
  unfold _runOnJobQueue_submit. run.
  destruct (_fetch _ _ _ _ _) as [[resp|e] w1]; [|reflexivity].
  destruct (response_json resp) as [body|e]; [|reflexivity].
  destruct (getitem body "id"); reflexivity.
Qed.

Lemma _runOnJobQueue_submit_quiet w :
  quiet (announced w) (snd (_runOnJobQueue_submit w)).
Proof.
  rewrite _runOnJobQueue_submit_eq.
  pose proof (_fetch_quiet "POST" (pct_s (queryUrl cfg) (apikey cfg)) 0
                (Some (JDict (<["runOnJobQueue" := JBool true]> (params w))))
                (announced w)) as Hf.
  destruct (_fetch _ _ _ _ _) as [[resp|e] w1]; simpl in *; [|exact Hf].
  destruct (response_json resp) as [body|e]; [|exact Hf].
  destruct (getitem body "id"); [|exact Hf].
  eapply quiet_trans; [exact Hf|]. apply quiet_emit. reflexivity.
Qed.

Lemma _runOnJobQueue_quiet fuel w :
  quiet (announced w) (snd (_runOnJobQueue fuel w)).
Proof.
  unfold _runOnJobQueue.
  pose proof (_runOnJobQueue_submit_quiet w) as Hs.
  destruct (_runOnJobQueue_submit w) as [[jobId|e] w1]; simpl in *;
    [|exact Hs].
  pose proof (while_true_quiet fuel
                (_runOnJobQueue_poll (pct_s (statusUrl cfg) (py_str jobId)) jobId)
                w1 (_runOnJobQueue_poll_quiet _ _)) as Hl.
  destruct (while_true _ _ _) as [[[u|e]|] w2]; simpl in *;
    try (eapply quiet_trans; [exact Hs|exact Hl]).
  pose proof (_runOnJobQueue_result_quiet jobId w2) as Hr.
  destruct (_runOnJobQueue_result jobId w2) as [r w3]; simpl in *.
  eapply quiet_trans; [exact Hs|]. eapply quiet_trans; [exact Hl|exact Hr].
Qed.

Lemma announced_runs w :
  job_queue_runs (trace (announced w)) = S (job_queue_runs (trace w)).
Proof. simpl. rewrite job_queue_runs_app. simpl. lia. Qed.

Lemma _runOnJobQueue_runs fuel w :
  job_queue_runs (trace (snd (_runOnJobQueue fuel w)))
  = S (job_queue_runs (trace w)).
Proof.
  rewrite (quiet_runs _ _ (_runOnJobQueue_quiet fuel w)). apply announced_runs.
Qed.

Lemma _runOnJobQueue_params fuel w :
  params (snd (_runOnJobQueue fuel w))
  = <["runOnJobQueue" := JBool true]> (params w).
Proof. destruct (_runOnJobQueue_quiet fuel w) as [-> _]. reflexivity. Qed.

(** *** The claims about the transport *)

Lemma attempted_requests method url json w :
  requests (trace (attempted method url json w))
  = requests (trace w) ++ [request_of method url json].
Proof. simpl. rewrite !requests_app. simpl. rewrite app_nil_r. reflexivity. Qed.

Lemma attempted_sleeps method url json w :
  sleeps (trace (attempted method url json w)) = sleeps (trace w).
Proof. simpl. rewrite !sleeps_app. simpl. rewrite !app_nil_r. reflexivity. Qed.

Lemma log_requests lvl msg w :
  requests (trace (log lvl msg w)) = requests (trace w).
Proof. simpl. rewrite requests_app. simpl. apply app_nil_r. Qed.

Lemma log_sleeps lvl msg w :
  sleeps (trace (log lvl msg w)) = sleeps (trace w).
Proof. simpl. rewrite sleeps_app. simpl. apply app_nil_r. Qed.


(** C4.  An answer with status 400 is never retried, whatever the
    attempt count: the call ends having sent one request and slept not
    at all; and when the body is a JSON object with an entry
    [error_message] of value [X], it ends with [ApiError(X)]. *)
Theorem C4_status_400 method url attempt json w resp :
  answer method url json w = Responded resp ->
  status resp = 400 ->
  requests (trace (snd (_fetch method url attempt json w)))
    = requests (trace w) ++ [request_of method url json]
  /\ sleeps (trace (snd (_fetch method url attempt json w)))
     = sleeps (trace w)
  /\ forall d X,
       json_body resp = Some (JDict d) ->
       d !! "error_message" = Some X ->
       fst (_fetch method url attempt json w) = Raise (ApiError X).
Proof.
  intros Ha Hs. rewrite (_fetch_400 _ _ _ _ _ _ Ha Hs).
  unfold response_json.
  destruct (json_body resp) as [body|];
    [destruct (getitem body "error_message") as [m|e] eqn:Hg|];
    cbn [fst snd];
    rewrite ?log_requests, ?log_sleeps, attempted_requests, attempted_sleeps;
    (split; [reflexivity|split; [reflexivity|]]);
    intros d X Hb Hd; inversion Hb; subst; simpl in Hg; rewrite Hd in Hg;
    congruence.
Qed.

(** *** The claims about the entry point *)

Lemma py_eq_str_true v s : py_eq_str v s = true <-> v = JStr s.
Proof.
  destruct v; simpl; try (split; [discriminate|intros H; discriminate]).
  rewrite String.eqb_eq. split; [intros ->; reflexivity|congruence].
Qed.

Lemma py_eq_str_false v s : py_eq_str v s = false <-> v <> JStr s.
Proof.
  rewrite <- py_eq_str_true. destruct (py_eq_str v s); split; congruence.
Qed.

Lemma query_escalates fuel w :
  fst (direct w) = Raise (ApiError (JStr sentinel)) ->
  query fuel w = _runOnJobQueue fuel (snd (direct w)).
Proof.
  unfold query, direct. destruct (_fetch _ _ _ _ _) as [r w1]. simpl.
  intros ->. reflexivity.
Qed.

Lemma query_propagates fuel w :
  fst (direct w) <> Raise (ApiError (JStr sentinel)) ->
  query fuel w = (Some (fst (direct w)), snd (direct w)).
Proof.
  unfold query, direct. destruct (_fetch _ _ _ _ _) as [[r|e] w1]; simpl;
    [reflexivity|].
  intros Hne. destruct e; try reflexivity.
  destruct (py_eq_str message _) eqn:He; [|reflexivity].
  apply py_eq_str_true in He. subst. contradiction.
Qed.

Lemma direct_quiet w : quiet w (snd (direct w)).
Proof. apply _fetch_quiet. Qed.

Lemma sentinel_dec (r : result response) :
  r = Raise (ApiError (JStr sentinel)) \/ r <> Raise (ApiError (JStr sentinel)).
Proof.
  destruct r as [|e]; [right; discriminate|].
  destruct e; try (right; discriminate).
  destruct (py_eq_str message sentinel) eqn:He.
  - apply py_eq_str_true in He. subst. left. reflexivity.
  - apply py_eq_str_false in He. right. congruence.
Qed.

(** X16.  Up to the point where it hands over a response: [query]
    becomes the job-queue run exactly when its direct POST fails with
    [ApiError] carrying the sentinel message; otherwise the outcome of
    the direct POST, return value or error, is what [query] hands over
    or raises, and no job-queue run has been started by then. *)
Theorem query_handover_iff_sentinel fuel w :
  (fst (direct w) = Raise (ApiError (JStr sentinel)) ->
   query fuel w = _runOnJobQueue fuel (snd (direct w)))
  /\ (fst (direct w) <> Raise (ApiError (JStr sentinel)) ->
      query fuel w = (Some (fst (direct w)), snd (direct w)))
  /\ (job_queue_runs (trace (snd (query fuel w)))
        = S (job_queue_runs (trace w))
      <-> fst (direct w) = Raise (ApiError (JStr sentinel)))
  /\ (job_queue_runs (trace (snd (query fuel w)))
        = job_queue_runs (trace w)
      <-> fst (direct w) <> Raise (ApiError (JStr sentinel))).
Proof.
  pose proof (quiet_runs _ _ (direct_quiet w)) as Hd.
  split; [apply query_escalates|]. split; [apply query_propagates|].
  destruct (sentinel_dec (fst (direct w))) as [Hs|Hs].
  - rewrite (query_escalates fuel w Hs), _runOnJobQueue_runs, Hd.
    split; split; intros H; try assumption; try reflexivity; [lia|contradiction].
  - rewrite (query_propagates fuel w Hs). cbn [snd]. rewrite Hd.
    split; split; intros H; try assumption; try reflexivity; [lia|contradiction].
Qed.


(** *** The caller's dictionary *)

(** A transport call begins with its own request. *)
Lemma _fetch_begins method url retryCount json w :
  exists evs,
    trace (snd (_fetch method url retryCount json w))
    = trace (attempted method url json w) ++ evs.
Proof.
  rewrite _fetch_unfold. unfold _fetch_body. run.
  rewrite session_request_eq.
  destruct (answer method url json w) as [resp|detail];
    [|exists []; rewrite app_nil_r; reflexivity].
  destruct (_ && _)%bool; [exists []; rewrite app_nil_r; reflexivity|].
  destruct (_ && _)%bool.
  - destruct (_fetch_quiet method url (retryCount + 1) None
                (sleep 1 (attempted method url json w)))
      as [_ (evs & Ht & _)].
    exists (Sleep 1 :: evs). rewrite Ht. simpl. rewrite <- !app_assoc.
    reflexivity.
  - destruct (status resp =? 400).
    + destruct (response_json resp) as [body|e];
        [|exists []; rewrite app_nil_r; reflexivity].
      destruct (getitem body "error_message");
        [|exists []; rewrite app_nil_r; reflexivity].
      eexists [_]. reflexivity.
    + eexists [_]. reflexivity.
Qed.

Lemma query_begins fuel w :
  exists rest,
    requests (trace (snd (query fuel w)))
    = requests (trace w)
      ++ request_of "POST" (pct_s (queryUrl cfg) (apikey cfg))
           (Some (JDict (params w))) :: rest.
Proof.
  destruct (_fetch_begins "POST" (pct_s (queryUrl cfg) (apikey cfg)) 0
              (Some (JDict (params w))) w) as (evs & Hb).
  fold (direct w) in Hb.
  assert (exists evs', trace (snd (query fuel w))
                       = trace (snd (direct w)) ++ evs') as (evs' & Hq).
  { destruct (sentinel_dec (fst (direct w))) as [Hs|Hs].
    - rewrite (query_escalates fuel w Hs).
      destruct (_runOnJobQueue_quiet fuel (snd (direct w)))
        as [_ (evs' & Ht & _)].
      eexists (_ :: evs'). rewrite Ht. simpl. rewrite <- app_assoc.
      reflexivity.
    - rewrite (query_propagates fuel w Hs). exists [].
      rewrite app_nil_r. reflexivity. }
  exists (requests evs ++ requests evs').
  rewrite Hq, Hb, !requests_app, attempted_requests, <- !app_assoc.
  reflexivity.
Qed.

Lemma asProtobuf_world {A} (ParseFromString : string -> option A) fuel w :
  snd (asProtobuf ParseFromString fuel w)
  = snd (query fuel (setitem "format" (JStr "protobuf") w)).
Proof.
  unfold asProtobuf.
  destruct (query fuel _) as [[[r|e]|] w1]; try reflexivity.
  destruct (ParseFromString _); reflexivity.
Qed.

Lemma query_params fuel w :
  (fst (direct w) = Raise (ApiError (JStr sentinel)) ->
   params (snd (query fuel w))
   = <["runOnJobQueue" := JBool true]> (params w))
  /\ (fst (direct w) <> Raise (ApiError (JStr sentinel)) ->
      params (snd (query fuel w)) = params w).
Proof.
  destruct (direct_quiet w) as [Hp _]. split; intros Hs.
  - rewrite (query_escalates fuel w Hs), _runOnJobQueue_params, Hp.
    reflexivity.
  - rewrite (query_propagates fuel w Hs). exact Hp.
Qed.

(** C10.  The caller's dictionary is changed in place.  After
    [asProtobuf], whatever its outcome, it holds
    [format = 'protobuf'], and the first request sent already carried
    that entry.  After a [query] that escalated, whatever the outcome
    of the job-queue run, it is the caller's dictionary with
    [runOnJobQueue = True] stored in it; a [query] that did not
    escalate leaves it as it was.  After an [asProtobuf] that escalated
    it holds both entries. *)
Theorem C10_params_changed_in_place
    {A} (ParseFromString : string -> option A) fuel w :
  let with_format := <["format" := JStr "protobuf"]> (params w) in
  params (snd (asProtobuf ParseFromString fuel w)) !! "format"
  = Some (JStr "protobuf")
  /\ (exists rest,
        requests (trace (snd (asProtobuf ParseFromString fuel w)))
        = requests (trace w)
          ++ request_of "POST" (pct_s (queryUrl cfg) (apikey cfg))
               (Some (JDict with_format)) :: rest)
  /\ (fst (direct w) = Raise (ApiError (JStr sentinel)) ->
      params (snd (query fuel w))
      = <["runOnJobQueue" := JBool true]> (params w))
  /\ (fst (direct w) <> Raise (ApiError (JStr sentinel)) ->
      params (snd (query fuel w)) = params w)
  /\ (fst (direct (setitem "format" (JStr "protobuf") w))
        = Raise (ApiError (JStr sentinel)) ->
      params (snd (asProtobuf ParseFromString fuel w))
      = <["runOnJobQueue" := JBool true]> with_format).
Proof.
  intros with_format.
  pose proof (query_params fuel w) as [Hesc Hno].
  pose proof (query_params fuel (setitem "format" (JStr "protobuf") w))
    as [Hesc' Hno'].
  rewrite !asProtobuf_world.
  split; [|split; [apply (query_begins fuel (setitem _ _ w))|auto]].
  destruct (sentinel_dec
              (fst (direct (setitem "format" (JStr "protobuf") w))))
    as [Hs|Hs].
  - rewrite (Hesc' Hs). simpl.
    rewrite lookup_insert_ne by discriminate. apply lookup_insert_eq.
  - rewrite (Hno' Hs). simpl. apply lookup_insert_eq.
Qed.

(** *** The claims about the job-queue run *)

(** *** The polling loop *)

Lemma terminal_false status :
  terminal status = false
  <-> status <> JStr "finished" /\ status <> JStr "deleted"
      /\ status <> JStr "error".
Proof.
  unfold terminal. rewrite !orb_false_iff, !py_eq_str_false. tauto.
Qed.

Lemma poll_returns_intro url w resp json status :
  fst (_fetch "GET" url 0 None w) = Ok resp ->
  json_body resp = Some json ->
  getitem json "status" = Ok status ->
  poll_returns url w json status (polled url status w).
Proof.
  intros Hf Hb Hs. exists resp, (snd (_fetch "GET" url 0 None w)).
  split; [|auto]. rewrite <- Hf. apply surjective_pairing.
Qed.

(** One pass through the loop body after a poll that got a status. *)
Lemma poll_returns_body url jobId w json status w1 :
  poll_returns url w json status w1 ->
  _runOnJobQueue_poll url jobId w
  = if py_eq_str status "finished" then (Ok Break, w1)
    else if py_eq_str status "deleted"
    then (Raise (ApiError (JStr "Job was canceled")), w1)
    else if py_eq_str status "error"
    then match getitem json "error_message" with
         | Ok message => (Raise (ApiError message), w1)
         | Raise e => (Raise e, w1)
         end
    else (Ok Continue, waited status jobId w1).
Proof.
  intros (resp & w0 & Hf & Hb & Hs & ->).
  unfold _runOnJobQueue_poll. run. rewrite Hf. unfold response_json.
  rewrite Hb, Hs.
  destruct (py_eq_str status "finished"); [reflexivity|].
  destruct (py_eq_str status "deleted"); [reflexivity|].
  destruct (py_eq_str status "error"); [|reflexivity].
  destruct (getitem json "error_message"); reflexivity.
Qed.

Lemma poll_continue url jobId w json status w1 :
  poll_returns url w json status w1 ->
  terminal status = false ->
  _runOnJobQueue_poll url jobId w = (Ok Continue, waited status jobId w1).
Proof.
  intros Hp Ht. rewrite (poll_returns_body _ _ _ _ _ _ Hp).
  unfold terminal in Ht. rewrite !orb_false_iff in Ht.
  destruct Ht as [[-> ->] ->]. reflexivity.
Qed.

(** [n] cycles use up [n] rounds of the loop. *)
Lemma cycles_loop url jobId n fuel w w' :
  poll_sleep_cycles url jobId n w w' ->
  while_true (n + fuel) (_runOnJobQueue_poll url jobId) w
  = while_true fuel (_runOnJobQueue_poll url jobId) w'.
Proof.
  induction 1 as [w|n w json status w1 w' Hp Ht _ IH]; [reflexivity|].
  simpl. rewrite (poll_continue _ _ _ _ _ _ Hp Ht). exact IH.
Qed.

Lemma cycles_snoc url jobId n w w' json status w1 :
  poll_sleep_cycles url jobId n w w' ->
  poll_returns url w' json status w1 ->
  terminal status = false ->
  poll_sleep_cycles url jobId (S n) w (waited status jobId w1).
Proof.
  induction 1 as [w|n w json0 status0 w0 w' Hp0 Ht0 _ IH]; intros Hp Ht.
  - eapply cycles_S; [exact Hp|exact Ht|apply cycles_O].
  - eapply cycles_S; [exact Hp0|exact Ht0|]. apply IH; assumption.
Qed.

Lemma poll_waits_app t1 t2 :
  poll_waits (t1 ++ t2) = (poll_waits t1 + poll_waits t2)%nat.
Proof.
  unfold poll_waits. rewrite sleeps_app, List.filter_app, length_app.
  reflexivity.
Qed.

Lemma adds_waits method url w w' :
  adds method url w w' -> poll_waits (trace w') = poll_waits (trace w).
Proof.
  intros [_ (evs & -> & _ & _ & Hs)]. rewrite poll_waits_app.
  assert (poll_waits evs = 0%nat) as ->; [|lia].
  unfold poll_waits. induction Hs as [|s l -> _ IH]; [reflexivity|exact IH].
Qed.

Lemma poll_returns_waits url w json status w1 :
  poll_returns url w json status w1 ->
  poll_waits (trace w1) = poll_waits (trace w).
Proof.
  intros (resp & w0 & Hf & _ & _ & ->).
  pose proof (adds_waits _ _ _ _ (_fetch_adds "GET" url 0 None w)) as Ha.
  rewrite Hf in Ha. simpl in Ha. simpl. rewrite poll_waits_app, Ha.
  unfold poll_waits at 2. simpl. lia.
Qed.

Lemma cycles_waits url jobId n w w' :
  poll_sleep_cycles url jobId n w w' ->
  poll_waits (trace w') = (poll_waits (trace w) + n)%nat.
Proof.
  induction 1 as [w|n w json status w1 w' Hp Ht _ IH]; [lia|].
  rewrite IH. simpl. rewrite !poll_waits_app.
  rewrite (poll_returns_waits _ _ _ _ _ Hp).
  unfold poll_waits at 2 3. simpl. lia.
Qed.

(** A poll begins with its GET to the status URL. *)
Lemma _runOnJobQueue_poll_begins url jobId w :
  exists evs,
    trace (snd (_runOnJobQueue_poll url jobId w))
    = trace (attempted "GET" url None w) ++ evs.
Proof.
  destruct (_fetch_begins "GET" url 0 None w) as (e1 & H1).
  assert (exists e2, trace (snd (_runOnJobQueue_poll url jobId w))
                     = trace (snd (_fetch "GET" url 0 None w)) ++ e2)
    as (e2 & H2).
  { unfold _runOnJobQueue_poll. run.
    destruct (_fetch "GET" url 0 None w) as [[resp|e] w1]; simpl;
      [|exists []; rewrite app_nil_r; reflexivity].
    destruct (response_json resp) as [body|e];
      [|exists []; rewrite app_nil_r; reflexivity].
    destruct (getitem body "status") as [st|e];
      [|exists []; rewrite app_nil_r; reflexivity].
    destruct (py_eq_str st "finished"); [eexists [_]; reflexivity|].
    destruct (py_eq_str st "deleted"); [eexists [_]; reflexivity|].
    destruct (py_eq_str st "error").
    - destruct (getitem body "error_message"); eexists [_]; reflexivity.
    - eexists [_; _; _]. simpl. rewrite <- !app_assoc. reflexivity. }
  exists (e1 ++ e2). rewrite H2, H1, app_assoc. reflexivity.
Qed.

(** A loop with fuel for one round at least begins with a poll. *)
Lemma while_true_poll_begins url jobId fuel w :
  exists evs,
    trace (snd (while_true (S fuel) (_runOnJobQueue_poll url jobId) w))
    = trace (attempted "GET" url None w) ++ evs.
Proof.
  destruct (_runOnJobQueue_poll_begins url jobId w) as (e1 & H1).
  simpl.
  destruct (_runOnJobQueue_poll url jobId w) as [[[|]|e] w1]; simpl in *;
    try (exists e1; exact H1).
  destruct (while_true_quiet fuel (_runOnJobQueue_poll url jobId) w1
              (_runOnJobQueue_poll_quiet _ _)) as [_ (e2 & H2 & _)].
  exists (e1 ++ e2). rewrite H2, H1, app_assoc. reflexivity.
Qed.

(** The run goes on from where its loop stops. *)
Lemma _runOnJobQueue_extends_loop fuel w0 jobId w :
  _runOnJobQueue_submit w0 = (Ok jobId, w) ->
  exists evs,
    trace (snd (_runOnJobQueue fuel w0))
    = trace (snd (while_true fuel
                    (_runOnJobQueue_poll (pct_s (statusUrl cfg) (py_str jobId))
                       jobId) w))
      ++ evs.
Proof.
  intros Hsub. unfold _runOnJobQueue. rewrite Hsub. cbn zeta.
  destruct (while_true fuel _ w) as [[[u|e]|] w2]; cbn [snd];
    try (exists []; rewrite app_nil_r; reflexivity).
  destruct (_runOnJobQueue_result_quiet jobId w2) as [_ (evs & Ht & _)].
  destruct (_runOnJobQueue_result jobId w2) as [r w3]. cbn [snd] in *.
  exists evs. exact Ht.
Qed.

(** C3.  In a job-queue run whose submit gave the job id, after [n]
    poll-sleep cycles: a poll that gets the status [finished] ends the
    loop, and the run goes on with the GET of the result URL and ends as
    that transport call ends; [deleted] makes the run fail at once with
    [ApiError("Job was canceled")]; [error] makes it fail with
    [ApiError] carrying the [error_message] of that same answer; any
    other status is followed by the 5 second sleep and then by one more
    GET of the status URL.  The polls before it have slept 5 seconds
    exactly [n] times: two for [pending, pending, finished]. *)
Theorem C3_polling w0 jobId n fuel w w' json status w1 :
  _runOnJobQueue_submit w0 = (Ok jobId, w) ->
  let url := pct_s (statusUrl cfg) (py_str jobId) in
  poll_sleep_cycles url jobId n w w' ->
  poll_returns url w' json status w1 ->
  let loop := while_true (n + S fuel) (_runOnJobQueue_poll url jobId) w in
  let run := _runOnJobQueue (n + S fuel) w0 in
  let result_url := pct_s (resultUrl cfg) (py_str jobId) in
  let fetched :=
    _fetch "GET" result_url 0 None
      (log DEBUG ("Fetching result for job id " ++ py_str jobId) w1) in
  (status = JStr "finished" ->
   loop = (Some (Ok tt), w1)
   /\ run = (Some (fst fetched), snd fetched)
   /\ exists rest,
        requests (trace (snd run))
        = requests (trace w1) ++ request_of "GET" result_url None :: rest)
  /\ (status = JStr "deleted" ->
      loop = (Some (Raise (ApiError (JStr "Job was canceled"))), w1)
      /\ run = (Some (Raise (ApiError (JStr "Job was canceled"))), w1))
  /\ (status = JStr "error" ->
      forall d X,
        json = JDict d -> d !! "error_message" = Some X ->
        loop = (Some (Raise (ApiError X)), w1)
        /\ run = (Some (Raise (ApiError X)), w1))
  /\ (status <> JStr "finished" -> status <> JStr "deleted" ->
      status <> JStr "error" ->
      loop = while_true fuel (_runOnJobQueue_poll url jobId)
               (waited status jobId w1)
      /\ poll_sleep_cycles url jobId (S n) w (waited status jobId w1)
      /\ sleeps (trace (waited status jobId w1))
         = sleeps (trace w1) ++ [5]
      /\ (fuel <> 0%nat ->
          exists rest rest',
            requests (trace (snd run))
            = requests (trace w1) ++ request_of "GET" url None :: rest
            /\ sleeps (trace (snd run))
               = sleeps (trace w1) ++ 5 :: rest'))
  /\ poll_waits (trace w1) = (poll_waits (trace w) + n)%nat.
Proof.
  intros Hsub url Hc Hp loop run result_url fetched.
  assert (Hloop : loop
                  = while_true (S fuel) (_runOnJobQueue_poll url jobId) w')
    by (apply cycles_loop; exact Hc).
  assert (Hrun : forall o w2, loop = (Some (Raise o), w2) ->
                 run = (Some (Raise o), w2)).
  { intros o w2 Hl. unfold run, _runOnJobQueue. rewrite Hsub. cbn zeta.
    fold url. fold loop. rewrite Hl. reflexivity. }
  simpl in Hloop. rewrite (poll_returns_body _ jobId _ _ _ _ Hp) in Hloop.
  split; [|split; [|split; [|split]]].
  - intros ->. simpl in Hloop. split; [exact Hloop|].
    assert (Hr : run = (Some (fst fetched), snd fetched)).
    { unfold run, _runOnJobQueue. rewrite Hsub. cbn zeta.
      fold url. fold loop. rewrite Hloop.
      unfold _runOnJobQueue_result, bind, exec. fold result_url fetched.
      destruct fetched; reflexivity. }
    split; [exact Hr|]. rewrite Hr. cbn [snd].
    destruct (_fetch_begins "GET" result_url 0 None
                (log DEBUG ("Fetching result for job id " ++ py_str jobId) w1))
      as (evs & Hb).
    fold fetched in Hb. exists (requests evs).
    rewrite Hb, requests_app, attempted_requests, log_requests,
      <- app_assoc. reflexivity.
  - intros ->. simpl in Hloop. split; [exact Hloop|apply Hrun, Hloop].
  - intros -> d X -> Hd. simpl in Hloop. rewrite Hd in Hloop.
    split; [exact Hloop|apply Hrun, Hloop].
  - intros H1 H2 H3.
    assert (Ht : terminal status = false) by (apply terminal_false; auto).
    pose proof Ht as Ht'. unfold terminal in Ht'.
    rewrite !orb_false_iff in Ht'. destruct Ht' as [[E1 E2] E3].
    rewrite E1, E2, E3 in Hloop.
    split; [exact Hloop|]. split; [eapply cycles_snoc; eauto|].
    split; [simpl; rewrite !sleeps_app; simpl; rewrite app_nil_r; reflexivity|].
    intros Hfuel. destruct fuel as [|fuel']; [congruence|].
    destruct (_runOnJobQueue_extends_loop (n + S (S fuel')) w0 jobId w Hsub)
      as (e2 & H2').
    fold url in H2'. fold loop in H2'. fold run in H2'.
    destruct (while_true_poll_begins url jobId fuel' (waited status jobId w1))
      as (e1 & H1').
    rewrite <- Hloop in H1'.
    exists (requests e1 ++ requests e2), (sleeps e1 ++ sleeps e2).
    rewrite H2', H1', !requests_app, !sleeps_app,
      attempted_requests, attempted_sleeps.
    simpl. rewrite !requests_app, !sleeps_app. simpl.
    rewrite !app_nil_r, <- !app_assoc. split; reflexivity.
  - rewrite (poll_returns_waits _ _ _ _ _ Hp).
    apply (cycles_waits _ _ _ _ _ Hc).
Qed.

Lemma poll_cases url w :
  poll_transport_fails url w \/ poll_malformed url w
  \/ exists json status w1, poll_returns url w json status w1.
Proof.
  unfold poll_transport_fails, poll_malformed, poll_returns.
  destruct (_fetch "GET" url 0 None w) as [[resp|e] w1] eqn:Hf;
    [|left; eauto].
  right. destruct (json_body resp) as [json|] eqn:Hb;
    [|left; eexists _, _; eauto].
  destruct (getitem json "status") as [status|e] eqn:Hs.
  - right. rewrite <- Hf. eexists json, status, _, resp, w1.
    rewrite Hf. auto.
  - left. eexists _, _. split; [reflexivity|]. right. eauto.
Qed.

Lemma poll_stops_body url jobId w :
  poll_stops url w ->
  exists r w1, _runOnJobQueue_poll url jobId w = (r, w1) /\ r <> Ok Continue.
Proof.
  intros [(json & status & w1 & Hp & Ht)|[(e & w1 & Hf)|(resp & w1 & Hf & Hm)]].
  - rewrite (poll_returns_body _ jobId _ _ _ _ Hp).
    unfold terminal in Ht.
    destruct (py_eq_str status "finished"); [eexists _, _; split; [reflexivity|discriminate]|].
    destruct (py_eq_str status "deleted"); [eexists _, _; split; [reflexivity|discriminate]|].
    destruct (py_eq_str status "error"); [|discriminate].
    destruct (getitem json "error_message");
      eexists _, _; (split; [reflexivity|discriminate]).
  - unfold _runOnJobQueue_poll. run. rewrite Hf.
    eexists _, _; split; [reflexivity|discriminate].
  - unfold _runOnJobQueue_poll. run. rewrite Hf. unfold response_json.
    destruct Hm as [->|(json & e & -> & ->)];
      eexists _, _; (split; [reflexivity|discriminate]).
Qed.

Lemma while_true_stop fuel body w r w1 :
  body w = (r, w1) -> r <> Ok Continue ->
  fst (while_true (S fuel) body w) <> None.
Proof.
  intros Hb Hr. simpl. rewrite Hb.
  destruct r as [[|]|e]; simpl; congruence.
Qed.

Lemma loop_terminates_iff url jobId w :
  loop_terminates url jobId w
  <-> exists n w', poll_sleep_cycles url jobId n w w' /\ poll_stops url w'.
Proof.
  split.
  - intros [fuel Hf]. revert w Hf.
    induction fuel as [|fuel IH]; intros w Hf; [simpl in Hf; congruence|].
    destruct (poll_cases url w) as [H|[H|(json & status & w1 & Hp)]].
    + exists 0%nat, w. split; [constructor|right; left; exact H].
    + exists 0%nat, w. split; [constructor|right; right; exact H].
    + destruct (terminal status) eqn:Ht.
      * exists 0%nat, w. split; [constructor|left].
        exists json, status, w1. auto.
      * simpl in Hf. rewrite (poll_continue _ jobId _ _ _ _ Hp Ht) in Hf.
        destruct (IH _ Hf) as (n & w' & Hc & Hs).
        exists (S n), w'. split; [|exact Hs].
        eapply cycles_S; eauto.
  - intros (n & w' & Hc & Hs).
    destruct (poll_stops_body url jobId w' Hs) as (r & w1 & Hb & Hr).
    exists (n + 1)%nat. rewrite (cycles_loop _ _ _ _ _ _ Hc).
    eapply while_true_stop; eauto.
Qed.

(** C7, as the code has it.  The loop has no bound on its rounds:
    while polls get statuses that are not terminal it goes on, for as
    many rounds as there are such polls, and for ever when there is no
    end to them.  It comes to an end exactly when some poll gets a
    terminal status, or is aborted by its transport call, or gets an
    answer that is not JSON or has no entry [status]. *)
Theorem C7_loop_unbounded url jobId w :
  (forall n w', poll_sleep_cycles url jobId n w w' ->
     fst (while_true n (_runOnJobQueue_poll url jobId) w) = None)
  /\ ((forall n, exists w', poll_sleep_cycles url jobId n w w') ->
      forall fuel,
        fst (while_true fuel (_runOnJobQueue_poll url jobId) w) = None)
  /\ (loop_terminates url jobId w
      <-> exists n w',
            poll_sleep_cycles url jobId n w w'
            /\ (poll_terminal url w' \/ poll_transport_fails url w'
                \/ poll_malformed url w'))
  /\ (forall w0,
        _runOnJobQueue_submit w0 = (Ok jobId, w) ->
        url = pct_s (statusUrl cfg) (py_str jobId) ->
        (exists fuel, fst (_runOnJobQueue fuel w0) <> None)
        <-> loop_terminates url jobId w).
Proof.
  assert (Hrun : forall n w', poll_sleep_cycles url jobId n w w' ->
            fst (while_true n (_runOnJobQueue_poll url jobId) w) = None).
  { intros n w' Hc. replace n with (n + 0)%nat by lia.
    rewrite (cycles_loop _ _ _ _ _ _ Hc). reflexivity. }
  split; [exact Hrun|]. split; [|split].
  - intros Hall fuel. destruct (Hall fuel) as [w' Hc]. eapply Hrun, Hc.
  - apply loop_terminates_iff.
  - intros w0 Hsub ->. unfold loop_terminates, _runOnJobQueue.
    rewrite Hsub.
    split; intros [fuel Hf]; exists fuel;
      destruct (while_true fuel _ w) as [[[u|e]|] w2]; simpl in *;
      try congruence.
    destruct (_runOnJobQueue_result jobId w2). simpl. congruence.
Qed.

(** *** Answers that lack the entry looked up *)


(** *** The whole [async with] statement *)

(** [query] is the statement with a block that does nothing but take
    the response. *)
Lemma with_query_ret fuel w : with_query fuel ret w = query fuel w.
Proof.
  unfold with_query, query, query_except, ret.
  destruct (_fetch _ _ _ _ _) as [[resp|e] w1]; [reflexivity|].
  destruct e; try reflexivity.
  destruct (negb _); [reflexivity|].
  destruct (_runOnJobQueue fuel w1) as [[[r|e]|] w2]; reflexivity.
Qed.

(** After a direct POST that succeeded, a block that raises [ApiError]
    with the sentinel message makes [query] start a job-queue run. *)
Lemma with_query_block_sentinel {A} fuel (block : response -> M A)
    w resp w1 w2 :
  direct w = (Ok resp, w1) ->
  block resp w1 = (Raise (ApiError (JStr sentinel)), w2) ->
  snd (with_query fuel block w) = snd (_runOnJobQueue fuel w2)
  /\ job_queue_runs (trace (snd (with_query fuel block w)))
     = S (job_queue_runs (trace w2))
  /\ forall r, fst (with_query fuel block w) <> Some (Ok r).
Proof.
  unfold direct, with_query, query_except. intros -> ->. simpl.
  pose proof (_runOnJobQueue_runs fuel w2) as Hr.
  destruct (_runOnJobQueue fuel w2) as [[[r|e]|] w3]; simpl in *;
    (split; [reflexivity|split; [exact Hr|intros r0; discriminate]]).
Qed.

(** X15.  The whole statement, for any block.  When the direct POST
    fails with the sentinel, the statement is the job-queue run
    followed by the block on the response of the run; any other error
    of the direct POST is the error of the statement, in the world the
    POST left, the block never run.  When the direct POST succeeds the
    block runs on its response, and the statement ends as the block
    does, unless the block raises [ApiError] with the sentinel message:
    then a job-queue run is started after the block, and the statement
    never ends with a value. *)
Theorem with_query_outcomes {A} fuel (block : response -> M A) w :
  (fst (direct w) = Raise (ApiError (JStr sentinel)) ->
   with_query fuel block w
   = match _runOnJobQueue fuel (snd (direct w)) with
     | (Some (Ok response), w1) =>
         (Some (fst (block response w1)), snd (block response w1))
     | (Some (Raise e), w1) => (Some (Raise e), w1)
     | (None, w1) => (None, w1)
     end)
  /\ (forall e,
        fst (direct w) = Raise e ->
        e <> ApiError (JStr sentinel) ->
        with_query fuel block w = (Some (Raise e), snd (direct w)))
  /\ (forall resp,
        fst (direct w) = Ok resp ->
        let b := block resp (snd (direct w)) in
        (fst b <> Raise (ApiError (JStr sentinel)) ->
         with_query fuel block w = (Some (fst b), snd b))
        /\ (fst b = Raise (ApiError (JStr sentinel)) ->
            snd (with_query fuel block w) = snd (_runOnJobQueue fuel (snd b))
            /\ job_queue_runs (trace (snd (with_query fuel block w)))
               = S (job_queue_runs (trace (snd b)))
            /\ forall r, fst (with_query fuel block w) <> Some (Ok r))).
Proof.
  unfold with_query, query_except, direct.
  destruct (_fetch _ _ _ _ _) as [[resp|e] w1]; cbn [fst snd].
  - split; [discriminate|]. split; [discriminate|].
    intros resp' Hr. injection Hr as <-.
    destruct (block resp w1) as [[a|e] w2] eqn:Hb; cbn [fst snd].
    + split; [reflexivity|discriminate].
    + split.
      * intros Hne. destruct e; try reflexivity.
        destruct (py_eq_str message _) eqn:He; [|reflexivity].
        apply py_eq_str_true in He. subst. contradiction.
      * intros He. injection He as ->. simpl.
        pose proof (_runOnJobQueue_runs fuel w2) as Hruns.
        destruct (_runOnJobQueue fuel w2) as [[[r|e]|] w3]; simpl in *;
          (split; [reflexivity|split; [exact Hruns|intros r0; discriminate]]).
  - split; [|split; [|discriminate]].
    + intros He. injection He as ->. simpl.
      destruct (_runOnJobQueue fuel w1) as [[[r|e]|] w2]; try reflexivity.
      destruct (block r w2); reflexivity.
    + intros e' He Hne. injection He as <-.
      destruct e; try reflexivity.
      destruct (py_eq_str message _) eqn:He; [|reflexivity].
      apply py_eq_str_true in He. subst. contradiction.
Qed.

(** ** Further properties of the transport *)

(** X1.  A 2xx answer is returned at once whatever the attempt count:
    one request, no sleep, the dictionary untouched. *)
Theorem fetch_2xx_returns method url retryCount json w resp :
  answer method url json w = Responded resp ->
  200 <= status resp <= 299 ->
  fst (_fetch method url retryCount json w) = Ok resp
  /\ requests (trace (snd (_fetch method url retryCount json w)))
     = requests (trace w) ++ [request_of method url json]
  /\ sleeps (trace (snd (_fetch method url retryCount json w)))
     = sleeps (trace w)
  /\ params (snd (_fetch method url retryCount json w)) = params w.
Proof.
  intros Ha Hs. rewrite (_fetch_success _ _ _ _ _ _ Ha Hs). cbn [fst snd].
  rewrite attempted_requests, attempted_sleeps. auto.
Qed.

(** X2.  A status that is neither 2xx, nor 408, nor 5xx, nor 400 (a 404,
    a 401, a 429, a redirect) ends the call at once with the generic
    exception carrying the content of the answer: one request, no
    sleep, never an [ApiError]. *)
Theorem fetch_other_status_fails method url retryCount json w resp :
  answer method url json w = Responded resp ->
  ~ 200 <= status resp <= 299 ->
  ~ retryable (status resp) ->
  status resp <> 400 ->
  fst (_fetch method url retryCount json w)
  = Raise (UnexpectedError (content resp))
  /\ requests (trace (snd (_fetch method url retryCount json w)))
     = requests (trace w) ++ [request_of method url json]
  /\ sleeps (trace (snd (_fetch method url retryCount json w)))
     = sleeps (trace w).
Proof.
  intros Ha H2 Hr H4. unfold retryable in Hr.
  rewrite _fetch_unfold. unfold _fetch_body. run.
  rewrite session_request_eq, Ha.
  replace ((200 <=? status resp) && (status resp <=? 299)) with false
    by (symmetry; apply andb_false_iff;
        rewrite Z.leb_gt, Z.leb_gt; lia).
  replace ((status resp =? 408)
           || (500 <=? status resp) && (status resp <=? 599)) with false
    by (symmetry; apply orb_false_iff; split;
        [apply Z.eqb_neq; lia
        |apply andb_false_iff; rewrite Z.leb_gt, Z.leb_gt; lia]).
  rewrite andb_false_r.
  replace (status resp =? 400) with false by (symmetry; apply Z.eqb_neq; lia).
  cbn [fst snd]. rewrite log_requests, log_sleeps.
  rewrite attempted_requests, attempted_sleeps. auto.
Qed.

(** X3.  A request that fails below HTTP (connection refused, reset,
    client timeout) is not retried by [_fetch], and [query] neither
    retries it nor takes it for the signal to use the job queue: the
    error reaches the caller after one request, and the dictionary is
    untouched. *)
Theorem connection_failure_propagates fuel w detail :
  answer "POST" (pct_s (queryUrl cfg) (apikey cfg))
    (Some (JDict (params w))) w = Failed detail ->
  fst (query fuel w) = Some (Raise (ClientError detail))
  /\ requests (trace (snd (query fuel w)))
     = requests (trace w)
       ++ [request_of "POST" (pct_s (queryUrl cfg) (apikey cfg))
             (Some (JDict (params w)))]
  /\ sleeps (trace (snd (query fuel w))) = sleeps (trace w)
  /\ job_queue_runs (trace (snd (query fuel w))) = job_queue_runs (trace w)
  /\ params (snd (query fuel w)) = params w.
Proof.
  intros Ha.
  assert (Hd : direct w
               = (Raise (ClientError detail),
                  attempted "POST" (pct_s (queryUrl cfg) (apikey cfg))
                    (Some (JDict (params w))) w))
    by (apply _fetch_failed; exact Ha).
  rewrite query_propagates by (rewrite Hd; discriminate).
  pose proof (quiet_runs _ _ (direct_quiet w)) as Hq.
  rewrite Hd in *. cbn [fst snd] in *.
  rewrite attempted_requests, attempted_sleeps. auto.
Qed.

(** One step of [_fetch]: either the call ends after its request,
    having added nothing but log lines, or it is below the retry limit
    and becomes the next attempt, one second later. *)
Lemma _fetch_step method url retryCount json w :
  (exists logs,
     trace (snd (_fetch method url retryCount json w))
     = trace (attempted method url json w) ++ logs
     /\ requests logs = [] /\ sleeps logs = [])
  \/ (retryCount < httpMaxRetryCount cfg
      /\ _fetch method url retryCount json w
         = _fetch method url (retryCount + 1) None
             (sleep 1 (attempted method url json w))).
Proof.
  pose proof (_fetch_unfold method url retryCount json w) as Hu.
  unfold _fetch_body, bind, exec, eval, ret, raise in Hu. simpl in Hu.
  rewrite session_request_eq in Hu.
  assert (Hend : forall l,
            requests l = [] -> sleeps l = [] ->
            snd (_fetch method url retryCount json w)
            = {| params := params w;
                 trace := trace (attempted method url json w) ++ l |} ->
            exists logs,
              trace (snd (_fetch method url retryCount json w))
              = trace (attempted method url json w) ++ logs
              /\ requests logs = [] /\ sleeps logs = []).
  { intros l Hr Hs ->. exists l. auto. }
  destruct (answer method url json w) as [resp|detail];
    [|left; apply (Hend []); auto; rewrite Hu, app_nil_r; reflexivity].
  destruct (_ && _)%bool;
    [left; apply (Hend []); auto; rewrite Hu, app_nil_r; reflexivity|].
  destruct (retryCount <? httpMaxRetryCount cfg) eqn:Hlt; simpl in Hu.
  - destruct (_ || _)%bool.
    + right. split; [apply Z.ltb_lt; exact Hlt|exact Hu].
    + left. destruct (status resp =? 400).
      * destruct (response_json resp) as [body|e];
          [|apply (Hend []); auto; rewrite Hu, app_nil_r; reflexivity].
        destruct (getitem body "error_message");
          [|apply (Hend []); auto; rewrite Hu, app_nil_r; reflexivity].
        eapply (Hend [_]); [| |rewrite Hu; reflexivity]; reflexivity.
      * eapply (Hend [_]); [| |rewrite Hu; reflexivity]; reflexivity.
  - left. destruct (status resp =? 400).
    + destruct (response_json resp) as [body|e];
        [|apply (Hend []); auto; rewrite Hu, app_nil_r; reflexivity].
      destruct (getitem body "error_message");
        [|apply (Hend []); auto; rewrite Hu, app_nil_r; reflexivity].
      eapply (Hend [_]); [| |rewrite Hu; reflexivity]; reflexivity.
    + eapply (Hend [_]); [| |rewrite Hu; reflexivity]; reflexivity.
Qed.

Lemma _fetch_traffic_aux n :
  forall method url retryCount json w,
    Z.to_nat (httpMaxRetryCount cfg - retryCount) = n ->
    exists evs,
      trace (snd (_fetch method url retryCount json w)) = trace w ++ evs
      /\ (1 <= length (requests evs) <= S n)%nat
      /\ sleeps evs = repeat 1 (length (requests evs) - 1).
Proof.
  induction n as [|n IH]; intros method url retryCount json w Hn;
    (destruct (_fetch_step method url retryCount json w)
       as [(logs & Ht & Hr & Hs)|[Hlt Heq]];
     [ exists ([Log DEBUG ("Getting url " ++ method ++ " " ++ url);
                Request (request_of method url json)] ++ logs);
       split; [rewrite Ht; simpl; rewrite <- !app_assoc; reflexivity|];
       rewrite requests_app, sleeps_app, Hr, Hs; simpl; split;
       [lia|reflexivity]
     | ]).
  - lia.
  - destruct (IH method url (retryCount + 1) None
                (sleep 1 (attempted method url json w)))
      as (evs & Ht & Hlen & Hsl); [lia|].
    rewrite Heq, Ht.
    exists ([Log DEBUG ("Getting url " ++ method ++ " " ++ url);
             Request (request_of method url json); Sleep 1] ++ evs).
    split; [simpl; rewrite <- !app_assoc; reflexivity|].
    rewrite requests_app, sleeps_app, Hsl. simpl. split; [lia|].
    destruct (length (requests evs)) as [|k]; [lia|].
    simpl. rewrite Nat.sub_0_r. reflexivity.
Qed.

Lemma actions_app t1 t2 : actions (t1 ++ t2) = actions t1 ++ actions t2.
Proof.
  induction t1 as [|[r|z|l m] t1 IH]; simpl; [reflexivity| | |exact IH];
    f_equal; exact IH.
Qed.

Lemma actions_silent l : requests l = [] -> sleeps l = [] -> actions l = [].
Proof.
  induction l as [|[r|z|lv m] l IH]; simpl; intros Hr Hs;
    [reflexivity|discriminate|discriminate|auto].
Qed.

(** The requests and sleeps of one transport call, in the order they
    happen: the first request carries the body, every retry comes one
    second after the request before it and carries none. *)
Lemma _fetch_paced_aux n :
  forall method url retryCount json w,
    Z.to_nat (httpMaxRetryCount cfg - retryCount) = n ->
    exists evs k,
      trace (snd (_fetch method url retryCount json w)) = trace w ++ evs
      /\ requests evs
         = request_of method url json
           :: repeat (request_of method url None) k
      /\ actions evs = paced (requests evs).
Proof.
  induction n as [|n IH]; intros method url retryCount json w Hn;
    (destruct (_fetch_step method url retryCount json w)
       as [(logs & Ht & Hr & Hs)|[Hlt Heq]];
     [ exists ([Log DEBUG ("Getting url " ++ method ++ " " ++ url);
                Request (request_of method url json)] ++ logs), 0%nat;
       split; [rewrite Ht; simpl; rewrite <- !app_assoc; reflexivity|];
       rewrite requests_app, actions_app, Hr, (actions_silent _ Hr Hs);
       simpl; split; reflexivity
     | ]).
  - lia.
  - destruct (IH method url (retryCount + 1) None
                (sleep 1 (attempted method url json w)))
      as (evs & k & Ht & Hreq & Hact); [lia|].
    rewrite Heq, Ht.
    exists ([Log DEBUG ("Getting url " ++ method ++ " " ++ url);
             Request (request_of method url json); Sleep 1] ++ evs), (S k).
    split; [simpl; rewrite <- !app_assoc; reflexivity|].
    rewrite requests_app, actions_app, Hact, Hreq. simpl.
    split; reflexivity.
Qed.

(** X4.  The traffic of one transport call, whatever the remote side
    does.  Log lines apart, what it does is: send the request with the
    given body, then, for each retry, sleep one second and send the
    request again without a body; so between each two consecutive
    requests there is exactly one sleep of one second, and there is no
    sleep before the first request or after the last.  It sends at
    least one request and at most [httpMaxRetryCount - retryCount + 1],
    all with the given method to the given URL, and it leaves the
    caller's dictionary alone. *)
Theorem fetch_traffic_bounded method url retryCount json w :
  exists evs,
    trace (snd (_fetch method url retryCount json w)) = trace w ++ evs
    /\ actions evs = paced (requests evs)
    /\ (exists k,
          requests evs
          = request_of method url json
            :: repeat (request_of method url None) k)
    /\ (1 <= length (requests evs)
        <= S (Z.to_nat (httpMaxRetryCount cfg - retryCount)))%nat
    /\ sleeps evs = repeat 1 (length (requests evs) - 1)
    /\ Forall (fun r => req_method r = method /\ req_url r = url)
         (requests evs)
    /\ params (snd (_fetch method url retryCount json w)) = params w.
Proof.
  destruct (_fetch_traffic_aux _ method url retryCount json w eq_refl)
    as (evs & Ht & Hlen & Hsl).
  destruct (_fetch_adds method url retryCount json w)
    as [Hp (evs' & Ht' & _ & Hr & _)].
  destruct (_fetch_paced_aux _ method url retryCount json w eq_refl)
    as (evs'' & k & Ht'' & Hreq & Hact).
  assert (evs' = evs) by (rewrite Ht in Ht'; eapply app_inv_head; eauto).
  assert (evs'' = evs) by (rewrite Ht in Ht''; eapply app_inv_head; eauto).
  subst evs' evs''. exists evs. eauto 10.
Qed.

(** X5.  Against a remote side that keeps giving the same 408 or 5xx
    answer, a call uses up its retries and then fails with the generic
    exception: it sends one request more than there are retries left,
    and sleeps one second for each retry. *)
Theorem fetch_retries_exhausted resp method url retryCount json w :
  (forall t r, server t r = Responded resp) ->
  retryable (status resp) ->
  let left := Z.to_nat (httpMaxRetryCount cfg - retryCount) in
  fst (_fetch method url retryCount json w)
  = Raise (UnexpectedError (content resp))
  /\ length (requests (trace (snd (_fetch method url retryCount json w))))
     = (length (requests (trace w)) + left + 1)%nat
  /\ sleeps (trace (snd (_fetch method url retryCount json w)))
     = sleeps (trace w) ++ repeat 1 left.
Proof.
  intros Hconst Hret left. subst left.
  remember (Z.to_nat (httpMaxRetryCount cfg - retryCount)) as n eqn:Hn.
  revert retryCount json w Hn.
  induction n as [|n IH]; intros retryCount json w Hn.
  - rewrite (_fetch_exhausted method url retryCount json w resp);
      [|apply Hconst|exact Hret|lia].
    cbn [fst snd]. rewrite log_requests, log_sleeps.
    rewrite attempted_requests, attempted_sleeps, length_app.
    simpl. rewrite app_nil_r. split; [reflexivity|split; [lia|reflexivity]].
  - rewrite (_fetch_retry method url retryCount json w resp);
      [|apply Hconst|exact Hret|lia].
    destruct (IH (retryCount + 1) None
                (sleep 1 (attempted method url json w)))
      as (Hf & Hr & Hs); [lia|].
    rewrite Hf, Hr, Hs. simpl trace.
    rewrite requests_app, sleeps_app. simpl.
    pose proof (attempted_requests method url json w) as Har.
    pose proof (attempted_sleeps method url json w) as Has.
    simpl in Har, Has. rewrite Har, Has, !app_nil_r, length_app.
    simpl. rewrite <- app_assoc. simpl.
    split; [reflexivity|split; [lia|reflexivity]].
Qed.

Lemma answer_scripted script pre o rest method url json w :
  follows_script script ->
  script = pre ++ o :: rest ->
  length (requests (trace w)) = length pre ->
  answer method url json w = o.
Proof.
  intros Hscript -> Hlen. unfold answer. rewrite Hscript. unfold scripted.
  rewrite log_requests, Hlen, list_lookup_middle by reflexivity.
  reflexivity.
Qed.

Lemma fetch_recovers_aux script ok rest rs :
  forall pre method url retryCount json w,
    follows_script script ->
    script = pre ++ map Responded rs ++ Responded ok :: rest ->
    length (requests (trace w)) = length pre ->
    Forall (fun r => retryable (status r)) rs ->
    200 <= status ok <= 299 ->
    retryCount + Z.of_nat (length rs) <= httpMaxRetryCount cfg ->
    fst (_fetch method url retryCount json w) = Ok ok
    /\ length (requests (trace (snd (_fetch method url retryCount json w))))
       = (length pre + length rs + 1)%nat
    /\ sleeps (trace (snd (_fetch method url retryCount json w)))
       = sleeps (trace w) ++ repeat 1 (length rs).
Proof.
  induction rs as [|r rs IH];
    intros pre method url retryCount json w Hscript Hs Hlen Hall Hok Hle.
  - rewrite (_fetch_success method url retryCount json w ok);
      [|eapply answer_scripted; [exact Hscript|exact Hs|exact Hlen]|exact Hok].
    cbn [fst snd]. rewrite attempted_requests, attempted_sleeps, length_app.
    simpl. rewrite app_nil_r. split; [reflexivity|split; [lia|reflexivity]].
  - inversion Hall as [|r' rs' Hr Hrs]; subst r' rs'.
    simpl length in Hle.
    rewrite (_fetch_retry method url retryCount json w r);
      [|eapply answer_scripted; [exact Hscript|exact Hs|exact Hlen]|exact Hr|lia].
    destruct (IH (pre ++ [Responded r]) method url (retryCount + 1) None
                (sleep 1 (attempted method url json w)))
      as (Hf & Hrq & Hsl); try assumption.
    + rewrite Hs. simpl. rewrite <- app_assoc. reflexivity.
    + simpl trace. rewrite requests_app. simpl.
      pose proof (attempted_requests method url json w) as Har.
      simpl in Har. rewrite Har, app_nil_r, !length_app. simpl. lia.
    + lia.
    + rewrite Hf, Hrq, Hsl. simpl trace. rewrite sleeps_app. simpl.
      pose proof (attempted_sleeps method url json w) as Has.
      simpl in Has. rewrite Has, length_app, <- app_assoc. simpl.
      split; [reflexivity|split; [lia|reflexivity]].
Qed.

(** X6.  Transient failures are recovered from: when the first answers
    of a session are 408 or 5xx, no more of them than
    [httpMaxRetryCount], and the next one is 2xx, the call returns that
    answer, after one request per answer and one second of sleep per
    failure. *)
Theorem fetch_recovers script rs ok rest method url json w :
  follows_script script ->
  script = map Responded rs ++ Responded ok :: rest ->
  requests (trace w) = [] ->
  Forall (fun r => retryable (status r)) rs ->
  200 <= status ok <= 299 ->
  Z.of_nat (length rs) <= httpMaxRetryCount cfg ->
  fst (_fetch method url 0 json w) = Ok ok
  /\ length (requests (trace (snd (_fetch method url 0 json w))))
     = (length rs + 1)%nat
  /\ sleeps (trace (snd (_fetch method url 0 json w)))
     = sleeps (trace w) ++ repeat 1 (length rs).
Proof.
  intros Hscript Hs Hw Hall Hok Hle.
  apply (fetch_recovers_aux script ok rest rs [] method url 0 json w);
    auto. rewrite Hw. reflexivity.
Qed.

(** ** Further properties of the entry point and of the job-queue run *)

(** X7.  The fast path: when the direct POST is answered 2xx, [query]
    returns that answer after this one request; it does not sleep, does
    not start a job-queue run, and leaves the dictionary as it was. *)
Theorem query_direct_success fuel w resp :
  answer "POST" (pct_s (queryUrl cfg) (apikey cfg))
    (Some (JDict (params w))) w = Responded resp ->
  200 <= status resp <= 299 ->
  fst (query fuel w) = Some (Ok resp)
  /\ requests (trace (snd (query fuel w)))
     = requests (trace w)
       ++ [request_of "POST" (pct_s (queryUrl cfg) (apikey cfg))
             (Some (JDict (params w)))]
  /\ sleeps (trace (snd (query fuel w))) = sleeps (trace w)
  /\ job_queue_runs (trace (snd (query fuel w))) = job_queue_runs (trace w)
  /\ params (snd (query fuel w)) = params w.
Proof.
  intros Ha Hs.
  assert (Hd : direct w
               = (Ok resp,
                  attempted "POST" (pct_s (queryUrl cfg) (apikey cfg))
                    (Some (JDict (params w))) w))
    by (apply _fetch_success; assumption).
  rewrite query_propagates by (rewrite Hd; discriminate).
  pose proof (quiet_runs _ _ (direct_quiet w)) as Hq.
  rewrite Hd in *. cbn [fst snd] in *.
  rewrite attempted_requests, attempted_sleeps. auto.
Qed.

(** X8.  Whatever happens to a query, no entry of the caller's
    dictionary other than [runOnJobQueue] is changed by [query], and
    none other than [format] and [runOnJobQueue] by [asProtobuf]. *)
Theorem params_other_keys_kept {A} (ParseFromString : string -> option A)
    fuel w key :
  (key <> "runOnJobQueue" ->
   params (snd (query fuel w)) !! key = params w !! key)
  /\ (key <> "runOnJobQueue" -> key <> "format" ->
      params (snd (asProtobuf ParseFromString fuel w)) !! key
      = params w !! key).
Proof.
  assert (Hq : forall w0, key <> "runOnJobQueue" ->
            params (snd (query fuel w0)) !! key = params w0 !! key).
  { intros w0 Hk. destruct (query_params fuel w0) as [Hesc Hno].
    destruct (sentinel_dec (fst (direct w0))) as [Hs|Hs].
    - rewrite (Hesc Hs). apply lookup_insert_ne. congruence.
    - rewrite (Hno Hs). reflexivity. }
  split; [apply Hq|]. intros Hk Hf.
  rewrite asProtobuf_world, Hq by exact Hk. simpl.
  apply lookup_insert_ne. congruence.
Qed.

(** The job-queue run begins with the POST of the dictionary with the
    flag stored in it. *)
Lemma _runOnJobQueue_begins fuel w :
  exists rest,
    requests (trace (snd (_runOnJobQueue fuel w)))
    = requests (trace w)
      ++ request_of "POST" (pct_s (queryUrl cfg) (apikey cfg))
           (Some (JDict (<["runOnJobQueue" := JBool true]> (params w))))
         :: rest.
Proof.
  set (url := pct_s (queryUrl cfg) (apikey cfg)).
  set (body := Some (JDict (<["runOnJobQueue" := JBool true]> (params w)))).
  destruct (_fetch_begins "POST" url 0 body (announced w)) as (evs & Hb).
  assert (exists evs',
            trace (snd (_runOnJobQueue fuel w))
            = trace (snd (_fetch "POST" url 0 body (announced w))) ++ evs')
    as (evs' & Hrun).
  { unfold _runOnJobQueue. rewrite _runOnJobQueue_submit_eq.
    fold url body.
    destruct (_fetch "POST" url 0 body (announced w)) as [[resp|e] w1];
      [|exists []; rewrite app_nil_r; reflexivity].
    destruct (response_json resp) as [json|e];
      [|exists []; rewrite app_nil_r; reflexivity].
    destruct (getitem json "id") as [jobId|e];
      [|exists []; rewrite app_nil_r; reflexivity].
    cbn [snd].
    set (w2 := log INFO _ w1).
    destruct (while_true_quiet fuel
                (_runOnJobQueue_poll (pct_s (statusUrl cfg) (py_str jobId)) jobId)
                w2 (_runOnJobQueue_poll_quiet _ _)) as [_ (e2 & Ht2 & _)].
    destruct (while_true _ _ w2) as [[[u|e]|] w3]; cbn [snd] in *;
      try (eexists (_ :: e2); rewrite Ht2; simpl; rewrite <- app_assoc;
           reflexivity).
    destruct (_runOnJobQueue_result_quiet jobId w3) as [_ (e3 & Ht3 & _)].
    destruct (_runOnJobQueue_result jobId w3) as [r w4]; cbn [snd] in *.
    eexists (_ :: e2 ++ e3). rewrite Ht3, Ht2. simpl.
    rewrite <- !app_assoc. reflexivity. }
  exists (requests evs ++ requests evs').
  rewrite Hrun, Hb, !requests_app, attempted_requests. simpl.
  rewrite requests_app. simpl. rewrite app_nil_r, <- !app_assoc.
  reflexivity.
Qed.

(** X9.  On escalation the job is submitted with the parameters of the
    direct query plus the flag: right after the requests of the direct
    attempt comes a POST to the same URL whose body is the caller's
    dictionary as it was, with [runOnJobQueue = True] stored in it. *)
Theorem escalation_resubmits_params fuel w :
  fst (direct w) = Raise (ApiError (JStr sentinel)) ->
  exists rest,
    requests (trace (snd (query fuel w)))
    = requests (trace (snd (direct w)))
      ++ request_of "POST" (pct_s (queryUrl cfg) (apikey cfg))
           (Some (JDict (<["runOnJobQueue" := JBool true]> (params w))))
         :: rest.
Proof.
  intros Hs. rewrite (query_escalates fuel w Hs).
  destruct (_runOnJobQueue_begins fuel (snd (direct w))) as (rest & Hr).
  destruct (direct_quiet w) as [Hp _]. rewrite Hp in Hr. eauto.
Qed.

(** X10.  The dictionary keeps the flag: a second [query] with the same
    dictionary, after one that escalated, already sends
    [runOnJobQueue = True] in its direct POST. *)
Theorem flag_sent_by_next_query fuel fuel' w :
  fst (direct w) = Raise (ApiError (JStr sentinel)) ->
  exists rest,
    requests (trace (snd (query fuel' (snd (query fuel w)))))
    = requests (trace (snd (query fuel w)))
      ++ request_of "POST" (pct_s (queryUrl cfg) (apikey cfg))
           (Some (JDict (<["runOnJobQueue" := JBool true]> (params w))))
         :: rest.
Proof.
  intros Hs.
  destruct (query_begins fuel' (snd (query fuel w))) as (rest & Hr).
  destruct (query_params fuel w) as [Hesc _]. rewrite (Hesc Hs) in Hr.
  eauto.
Qed.

Lemma sends_refl method url w : sends method url w w.
Proof. exists []. rewrite app_nil_r. split; [reflexivity|constructor]. Qed.

Lemma sends_trans method url w1 w2 w3 :
  sends method url w1 w2 -> sends method url w2 w3 -> sends method url w1 w3.
Proof.
  intros (e1 & Ht1 & Hr1) (e2 & Ht2 & Hr2). exists (e1 ++ e2).
  rewrite Ht2, Ht1, <- app_assoc, requests_app.
  split; [reflexivity|]. apply Forall_app. auto.
Qed.

Lemma sends_silent method url e w :
  requests [e] = [] -> sends method url w (emit e w).
Proof. intros H. exists [e]. rewrite H. split; [reflexivity|constructor]. Qed.

Lemma adds_sends method url w w' : adds method url w w' -> sends method url w w'.
Proof. intros [_ (evs & Ht & _ & Hr & _)]. exists evs. auto. Qed.

Lemma sends_requests method url w w' :
  sends method url w w' ->
  exists rs,
    requests (trace w') = requests (trace w) ++ rs
    /\ Forall (fun r => req_method r = method /\ req_url r = url) rs.
Proof.
  intros (evs & -> & Hr). exists (requests evs). rewrite requests_app. auto.
Qed.

Lemma _runOnJobQueue_submit_sends w :
  sends "POST" (pct_s (queryUrl cfg) (apikey cfg)) w
    (snd (_runOnJobQueue_submit w)).
Proof.
  rewrite _runOnJobQueue_submit_eq.
  set (sent := _fetch _ _ _ _ _).
  assert (Hs : sends "POST" (pct_s (queryUrl cfg) (apikey cfg)) w (snd sent)).
  { eapply sends_trans; [|apply adds_sends, _fetch_adds].
    exists [Log INFO "Starting job on queue"]. split; [reflexivity|constructor]. }
  destruct sent as [[resp|e] w1]; cbn [snd] in *; [|exact Hs].
  destruct (response_json resp) as [json|e]; [|exact Hs].
  destruct (getitem json "id"); [|exact Hs].
  cbn [snd]. eapply sends_trans; [exact Hs|]. apply sends_silent. reflexivity.
Qed.

Lemma _runOnJobQueue_poll_sends url jobId w :
  sends "GET" url w (snd (_runOnJobQueue_poll url jobId w)).
Proof.
  unfold _runOnJobQueue_poll. run.
  pose proof (adds_sends _ _ _ _ (_fetch_adds "GET" url 0 None w)) as Hf.
  destruct (_fetch "GET" url 0 None w) as [[resp|e] w1]; simpl in *;
    [|exact Hf].
  destruct (response_json resp) as [body|e]; [|exact Hf].
  destruct (getitem body "status") as [st|e]; [|exact Hf].
  assert (Hl : sends "GET" url w (log DEBUG ("Job status is " ++ py_str st) w1))
    by (eapply sends_trans; [exact Hf|]; apply sends_silent; reflexivity).
  destruct (py_eq_str st "finished"); [exact Hl|].
  destruct (py_eq_str st "deleted"); [exact Hl|].
  destruct (py_eq_str st "error").
  - destruct (getitem body "error_message"); exact Hl.
  - simpl. eapply sends_trans; [exact Hl|].
    eapply sends_trans; apply sends_silent; reflexivity.
Qed.

Lemma while_true_sends method url fuel body w :
  (forall w0, sends method url w0 (snd (body w0))) ->
  sends method url w (snd (while_true fuel body w)).
Proof.
  intros Hb. revert w.
  induction fuel as [|fuel IH]; intros w; simpl; [apply sends_refl|].
  pose proof (Hb w) as Hw.
  destruct (body w) as [[[|]|e] w1]; simpl in *; try exact Hw.
  eapply sends_trans; [exact Hw|apply IH].
Qed.

Lemma _runOnJobQueue_result_sends jobId w :
  sends "GET" (pct_s (resultUrl cfg) (py_str jobId)) w
    (snd (_runOnJobQueue_result jobId w)).
Proof.
  unfold _runOnJobQueue_result. run.
  eapply sends_trans; [|apply adds_sends, _fetch_adds].
  apply sends_silent. reflexivity.
Qed.

(** C6.  The submit phase stores [runOnJobQueue = True] in the
    caller's dictionary and POSTs it, as the first request of the run,
    to the query endpoint; all it sends are POSTs to that URL.  The
    entry [id] of the JSON object that comes back is the job handle.
    When the transport call fails, or what comes back has no entry
    [id], the submit and the run fail there, in the world the transport
    call left: no poll, no fetch. *)
Theorem C6_submit fuel w :
  let url := pct_s (queryUrl cfg) (apikey cfg) in
  let flagged := <["runOnJobQueue" := JBool true]> (params w) in
  let posted := request_of "POST" url (Some (JDict flagged)) in
  let sent := _fetch "POST" url 0 (Some (JDict flagged)) (announced w) in
  (exists rest,
     requests (trace (snd (_runOnJobQueue_submit w)))
     = requests (trace w) ++ posted :: rest
     /\ Forall (fun r => req_method r = "POST" /\ req_url r = url) rest)
  /\ params (snd (_runOnJobQueue_submit w)) = flagged
  /\ (exists rest,
        requests (trace (snd (_runOnJobQueue fuel w)))
        = requests (trace w) ++ posted :: rest)
  /\ params (snd (_runOnJobQueue fuel w)) = flagged
  /\ (forall resp d jobId,
        fst sent = Ok resp ->
        json_body resp = Some (JDict d) ->
        d !! "id" = Some jobId ->
        _runOnJobQueue_submit w
        = (Ok jobId,
           log INFO ("Waiting until job has finished (job id "
                     ++ py_str jobId ++ ")") (snd sent)))
  /\ (forall e,
        fst sent = Raise e ->
        _runOnJobQueue_submit w = (Raise e, snd sent)
        /\ _runOnJobQueue fuel w = (Some (Raise e), snd sent))
  /\ (forall resp,
        fst sent = Ok resp ->
        (forall d jobId,
           json_body resp = Some (JDict d) -> d !! "id" <> Some jobId) ->
        exists e,
          _runOnJobQueue_submit w = (Raise e, snd sent)
          /\ _runOnJobQueue fuel w = (Some (Raise e), snd sent))
  /\ (exists evs,
        trace (snd sent) = trace w ++ evs
        /\ Forall (fun r => req_method r = "POST" /\ req_url r = url)
             (requests evs)).
Proof.
  intros url flagged posted sent.
  pose proof (_runOnJobQueue_submit_eq w) as Heq.
  fold url flagged sent in Heq.
  assert (Hfail : forall e, _runOnJobQueue_submit w = (Raise e, snd sent) ->
            _runOnJobQueue fuel w = (Some (Raise e), snd sent))
    by (intros e He; unfold _runOnJobQueue; rewrite He; reflexivity).
  split; [|split; [|split; [|split; [|split; [|split; [|split]]]]]].
  - destruct (sends_requests _ _ _ _ (_runOnJobQueue_submit_sends w))
      as (rs & Hrs & Frs).
    fold url in Frs.
    destruct (_fetch_begins "POST" url 0 (Some (JDict flagged)) (announced w))
      as (evs & Hb).
    fold sent in Hb.
    assert (exists evs', trace (snd (_runOnJobQueue_submit w))
                         = trace (snd sent) ++ evs') as (evs' & Hs).
    { rewrite Heq. destruct sent as [[resp|e] w1]; cbn [snd];
        [|exists []; rewrite app_nil_r; reflexivity].
      destruct (response_json resp) as [json|e];
        [|exists []; rewrite app_nil_r; reflexivity].
      destruct (getitem json "id");
        [eexists [_]; reflexivity|exists []; rewrite app_nil_r; reflexivity]. }
    assert (Hreq : requests (trace (snd (_runOnJobQueue_submit w)))
                   = requests (trace w)
                     ++ posted :: (requests evs ++ requests evs')).
    { rewrite Hs, Hb, !requests_app, attempted_requests. simpl.
      rewrite requests_app. simpl. rewrite app_nil_r, <- !app_assoc.
      reflexivity. }
    exists (requests evs ++ requests evs'). split; [exact Hreq|].
    rewrite Hreq in Hrs. apply app_inv_head in Hrs. subst rs.
    inversion Frs. assumption.
  - destruct (_runOnJobQueue_submit_quiet w) as [-> _]. reflexivity.
  - apply _runOnJobQueue_begins.
  - apply _runOnJobQueue_params.
  - intros resp d jobId Hs Hb Hd. rewrite Heq.
    destruct sent as [r w1]. simpl in Hs. subst r.
    unfold response_json. rewrite Hb. simpl. rewrite Hd. reflexivity.
  - intros e Hs.
    assert (He : _runOnJobQueue_submit w = (Raise e, snd sent))
      by (rewrite Heq; destruct sent as [r w1]; simpl in Hs; subst r;
          reflexivity).
    split; [exact He|apply Hfail, He].
  - intros resp Hs Hno.
    assert (exists e, _runOnJobQueue_submit w = (Raise e, snd sent))
      as (e & He).
    { rewrite Heq. destruct sent as [r w1]. simpl in Hs. subst r.
      unfold response_json. simpl snd.
      destruct (json_body resp) as [body|] eqn:Hb; [|eexists; reflexivity].
      destruct body; simpl; try (eexists; reflexivity).
      destruct (d !! "id") as [jobId|] eqn:Hd; [|eexists; reflexivity].
      exfalso. exact (Hno d jobId eq_refl Hd). }
    exists e. split; [exact He|apply Hfail, He].
  - destruct (_fetch_adds "POST" url 0 (Some (JDict flagged)) (announced w))
      as [_ (evs & Ht & _ & Hr & _)].
    fold sent in Ht. exists (Log INFO "Starting job on queue" :: evs).
    split; [|exact Hr].
    rewrite Ht. simpl. rewrite <- app_assoc. reflexivity.
Qed.

(** X11.  The phases of a job-queue run come strictly in sequence: its
    requests are first POSTs to the query URL, then GETs to the status
    URL of the job id, then GETs to the result URL of the job id.  When
    the submit fails there are no GETs at all, and the result URL is
    contacted only when the polling loop was left by [break]. *)
Theorem job_queue_phases fuel w :
  exists posts polls fetches,
    requests (trace (snd (_runOnJobQueue fuel w)))
    = requests (trace w) ++ posts ++ polls ++ fetches
    /\ Forall (fun r => req_method r = "POST"
                        /\ req_url r = pct_s (queryUrl cfg) (apikey cfg))
         posts
    /\ match _runOnJobQueue_submit w with
       | (Raise _, _) => polls = [] /\ fetches = []
       | (Ok jobId, w1) =>
           let url := pct_s (statusUrl cfg) (py_str jobId) in
           Forall (fun r => req_method r = "GET" /\ req_url r = url) polls
           /\ Forall (fun r => req_method r = "GET"
                               /\ req_url r
                                  = pct_s (resultUrl cfg) (py_str jobId))
                fetches
           /\ (fetches <> [] ->
               fst (while_true fuel (_runOnJobQueue_poll url jobId) w1)
               = Some (Ok tt))
       end.
Proof.
  unfold _runOnJobQueue.
  destruct (sends_requests _ _ _ _ (_runOnJobQueue_submit_sends w))
    as (posts & Hposts & Fposts).
  destruct (_runOnJobQueue_submit w) as [[jobId|e] w1]; cbn [snd] in *.
  - set (url := pct_s (statusUrl cfg) (py_str jobId)).
    destruct (sends_requests _ _ _ _
                (while_true_sends "GET" url fuel
                   (_runOnJobQueue_poll url jobId) w1
                   (_runOnJobQueue_poll_sends url jobId)))
      as (polls & Hpolls & Fpolls).
    destruct (while_true fuel _ w1) as [[[u|e]|] w2]; cbn [snd fst] in *.
    + destruct (sends_requests _ _ _ _ (_runOnJobQueue_result_sends jobId w2))
        as (fetches & Hfetches & Ffetches).
      destruct (_runOnJobQueue_result jobId w2) as [r w3]; cbn [snd] in *.
      exists posts, polls, fetches.
      rewrite Hfetches, Hpolls, Hposts, <- !app_assoc.
      destruct u. auto.
    + exists posts, polls, []. rewrite Hpolls, Hposts, app_nil_r, <- app_assoc.
      repeat split; auto. congruence.
    + exists posts, polls, []. rewrite Hpolls, Hposts, app_nil_r, <- app_assoc.
      repeat split; auto. congruence.
  - exists posts, [], []. rewrite Hposts, !app_nil_r. auto.
Qed.

(** The loop is left by [break] only after a poll that got the status
    [finished]. *)
Lemma loop_break_finished url jobId fuel :
  forall w w2,
    while_true fuel (_runOnJobQueue_poll url jobId) w = (Some (Ok tt), w2) ->
    exists n w' json,
      (n < fuel)%nat
      /\ poll_sleep_cycles url jobId n w w'
      /\ poll_returns url w' json (JStr "finished") w2.
Proof.
  induction fuel as [|fuel IH]; intros w w2 Hl; [discriminate|].
  simpl in Hl.
  destruct (poll_cases url w) as [Hf|[Hm|(json & status & w1 & Hp)]].
  - destruct Hf as (e & w1 & Hf). unfold _runOnJobQueue_poll in Hl.
    unfold bind in Hl. rewrite Hf in Hl. discriminate.
  - destruct Hm as (resp & w1 & Hf & Hm). unfold _runOnJobQueue_poll in Hl.
    unfold bind, eval in Hl. rewrite Hf in Hl. unfold response_json in Hl.
    destruct Hm as [Hm|(j & e & Hj & He)].
    + rewrite Hm in Hl. discriminate.
    + rewrite Hj, He in Hl. discriminate.
  - rewrite (poll_returns_body _ jobId _ _ _ _ Hp) in Hl.
    destruct (py_eq_str status "finished") eqn:E1.
    + apply py_eq_str_true in E1. subst status.
      inversion Hl; subst. exists 0%nat, w, json.
      split; [lia|]. split; [constructor|exact Hp].
    + destruct (py_eq_str status "deleted") eqn:E2; [discriminate|].
      destruct (py_eq_str status "error") eqn:E3;
        [destruct (getitem json "error_message"); discriminate|].
      destruct (IH _ _ Hl) as (n & w' & json' & Hn & Hc & Hp').
      exists (S n), w', json'. split; [lia|]. split; [|exact Hp'].
      eapply cycles_S; [exact Hp| |exact Hc].
      unfold terminal. rewrite E1, E2, E3. reflexivity.
Qed.

(** X12.  A job-queue run returns a response only if the submit gave a
    job id, some poll of that job got the status [finished], and the
    response is what the result URL answered after that poll. *)
Theorem run_returns_only_after_finished fuel w resp :
  fst (_runOnJobQueue fuel w) = Some (Ok resp) ->
  exists jobId w1 n w' json w2,
    _runOnJobQueue_submit w = (Ok jobId, w1)
    /\ (n < fuel)%nat
    /\ poll_sleep_cycles (pct_s (statusUrl cfg) (py_str jobId)) jobId n w1 w'
    /\ poll_returns (pct_s (statusUrl cfg) (py_str jobId)) w' json
         (JStr "finished") w2
    /\ _runOnJobQueue_result jobId w2
       = (Ok resp, snd (_runOnJobQueue fuel w)).
Proof.
  unfold _runOnJobQueue.
  destruct (_runOnJobQueue_submit w) as [[jobId|e] w1]; [|discriminate].
  cbn zeta.
  destruct (while_true fuel _ w1) as [[[[]|e]|] w2] eqn:Hl;
    try discriminate.
  destruct (loop_break_finished _ _ _ _ _ Hl) as (n & w' & json & Hn & Hc & Hp).
  destruct (_runOnJobQueue_result jobId w2) as [r w3] eqn:Hres.
  cbn [fst snd]. intros Hr. inversion Hr; subst.
  exists jobId, w1, n, w', json, w2. auto.
Qed.

End Client.

(** ** The client as constructed *)

Lemma append_nil_r (s : string) : (s ++ "")%string = s.
Proof.
  induction s as [|c s IH]; [reflexivity|].
  change (String c (s ++ "")%string = String c s). f_equal. exact IH.
Qed.

(** X13.  A client built from an API key retries five times: each of
    its transport calls started at attempt 0 sends at most six requests
    and sleeps at most five seconds, whatever the remote side does. *)
Theorem default_client_six_attempts py_str server key method url json w :
  let w' := snd (_fetch py_str server (Client_init key) method url 0 json w) in
  exists evs,
    trace w' = trace w ++ evs
    /\ (1 <= length (requests evs) <= 6)%nat
    /\ (length (sleeps evs) <= 5)%nat
    /\ Forall (fun s => s = 1) (sleeps evs).
Proof.
  destruct (_fetch_traffic_aux py_str server (Client_init key) _
              method url 0 json w eq_refl) as (evs & Ht & Hlen & Hsl).
  exists evs. simpl in Hlen. change (Pos.to_nat 5) with 5%nat in Hlen.
  split; [exact Ht|]. split; [lia|]. rewrite Hsl, repeat_length.
  split; [lia|]. generalize (length (requests evs) - 1)%nat. intros n.
  induction n as [|n IH]; simpl; constructor; auto.
Qed.

(** X14.  The URLs of a client built from an API key: the key and the
    job id are put behind the fixed prefixes as they are, unescaped. *)
Theorem default_client_urls key id :
  pct_s (queryUrl (Client_init key)) (apikey (Client_init key))
  = ("http://mystaging.meteoblue.com/dataset/query?apikey=" ++ key)%string
  /\ pct_s (statusUrl (Client_init key)) id
     = ("http://mystaging.meteoblue.com/queue/status/" ++ id)%string
  /\ pct_s (resultUrl (Client_init key)) id
     = ("http://queueresults.meteoblue.com/" ++ id)%string.
Proof.
  cbn -[String.append]. rewrite !append_nil_r.
  split; [reflexivity|split; reflexivity].
Qed.

(** ** The statements at work *)

Example getitem_dict :
  getitem (JDict {[ "id" := JInt 42 ]}) "id" = Ok (JInt 42).
Proof. reflexivity. Qed.

Example getitem_list : getitem (JList []) "error_message" = Raise TypeError.
Proof. reflexivity. Qed.

Example pct_s_query : pct_s (queryUrl cfg0) (apikey cfg0) = query_url.
Proof. reflexivity. Qed.


(** Six 503 in a row: six requests, five sleeps of one second. *)
Example retries_exhausted :
  let r := _fetch str_simple (always busy) cfg0 "GET" query_url 0 None world0 in
  fst r = Raise (UnexpectedError "Service Unavailable")
  /\ length (requests (trace (snd r))) = 6%nat
  /\ sleeps (trace (snd r)) = [1; 1; 1; 1; 1].
Proof. vm_compute. auto. Qed.

Lemma C4_witness :
  requests (trace (snd (_fetch str_simple (always (bad_request "X")) cfg0
                          "POST" query_url 0 (Some (JDict (params world0)))
                          world0)))
  = [request_of "POST" query_url (Some (JDict (params world0)))]
  /\ sleeps (trace (snd (_fetch str_simple (always (bad_request "X")) cfg0
                           "POST" query_url 0 (Some (JDict (params world0)))
                           world0)))
     = []
  /\ fst (_fetch str_simple (always (bad_request "X")) cfg0
            "POST" query_url 0 (Some (JDict (params world0))) world0)
     = Raise (ApiError (JStr "X")).
Proof.
  destruct (C4_status_400 str_simple (always (bad_request "X")) cfg0
              "POST" query_url 0 (Some (JDict (params world0))) world0
              _ eq_refl eq_refl) as (Hr & Hs & Hx).
  split; [exact Hr|]. split; [exact Hs|].
  apply (Hx {[ "error_message" := JStr "X" ]}); reflexivity.
Defined.

(** C1.  The direct POST is answered 200 and its response handed over;
    the caller's block then raises [ApiError] with the sentinel message.
    [query] takes it for the signal of the API: it starts a job-queue
    run, which stores the flag, submits, polls and fetches, and the
    caller gets neither a response nor the error of its block, but the
    [RuntimeError] of a generator that yielded twice. *)
Theorem C1_block_error_starts_run :
  let r := with_query str_simple served_then_queue_server cfg0 3
             block_raising_sentinel world0 in
  fst (direct str_simple served_then_queue_server cfg0 world0) = Ok rows
  /\ fst r = Some (Raise (RuntimeError "generator didn't stop after athrow()"))
  /\ job_queue_runs (trace (snd r)) = 1%nat
  /\ map req_method (requests (trace (snd r))) = ["POST"; "POST"; "GET"; "GET"]
  /\ params (snd r) !! "runOnJobQueue" = Some (JBool true).
Proof. vm_compute. auto 6. Qed.

(** C5.  A POST with a JSON body that is answered 503 and then 200: the
    retry goes to the same URL with the same method, but without the
    body. *)
Theorem C5_retry_drops_json_body :
  let body := Some (JDict (params world0)) in
  let r := _fetch str_simple (scripted [busy; http 200 "ok" None]) cfg0
             "POST" query_url 0 body world0 in
  fst r = Ok {| status := 200; content := "ok"; json_body := None |}
  /\ requests (trace (snd r))
     = [ request_of "POST" query_url body;
         request_of "POST" query_url None ].
Proof. vm_compute. auto. Qed.

(** The run of [queue_server]: the submit, two poll-sleep cycles, the
    poll that finds the job finished, then the fetch; and the runs that
    find the job deleted, or in error, at their first poll. *)
Lemma C3_witness :
  fst (_runOnJobQueue str_simple queue_server cfg0 3 world0)
  = Some (Ok {| status := 200; content := "result"; json_body := None |})
  /\ sleeps (trace (snd (_runOnJobQueue str_simple queue_server cfg0 3 world0)))
     = [5; 5]
  /\ map (fun r => (req_method r, req_url r))
       (requests
          (trace (snd (_runOnJobQueue str_simple queue_server cfg0 3 world0))))
     = [ ("POST", query_url); ("GET", status_url); ("GET", status_url);
         ("GET", status_url); ("GET", result_url) ]
  /\ fst (_runOnJobQueue str_simple deleted_job_server cfg0 1 world0)
     = Some (Raise (ApiError (JStr "Job was canceled")))
  /\ fst (_runOnJobQueue str_simple errored_job_server cfg0 1 world0)
     = Some (Raise (ApiError (JStr "Out of memory"))).
Proof.
  split; [|split; [|split; [|split]]].
  1-3:
    pose (w := snd (_runOnJobQueue_submit str_simple queue_server cfg0 world0));
    pose (w1 := waited str_simple (JStr "pending") (JInt 42)
                  (polled str_simple queue_server cfg0 status_url
                     (JStr "pending") w));
    pose (w2 := waited str_simple (JStr "pending") (JInt 42)
                  (polled str_simple queue_server cfg0 status_url
                     (JStr "pending") w1));
    assert (Hp1 : poll_returns str_simple queue_server cfg0 status_url w
                    (JDict {[ "status" := JStr "pending" ]}) (JStr "pending")
                    (polled str_simple queue_server cfg0 status_url
                       (JStr "pending") w))
      by (eapply poll_returns_intro; [vm_compute; reflexivity|reflexivity..]);
    assert (Hp2 : poll_returns str_simple queue_server cfg0 status_url w1
                    (JDict {[ "status" := JStr "pending" ]}) (JStr "pending")
                    (polled str_simple queue_server cfg0 status_url
                       (JStr "pending") w1))
      by (eapply poll_returns_intro; [vm_compute; reflexivity|reflexivity..]);
    assert (Hc : poll_sleep_cycles str_simple queue_server cfg0 status_url
                   (JInt 42) 2 w w2)
      by (eapply cycles_S; [exact Hp1|reflexivity|];
          eapply cycles_S; [exact Hp2|reflexivity|]; apply cycles_O);
    assert (Hp : poll_returns str_simple queue_server cfg0 status_url w2
                   (JDict {[ "status" := JStr "finished" ]}) (JStr "finished")
                   (polled str_simple queue_server cfg0 status_url
                      (JStr "finished") w2))
      by (eapply poll_returns_intro; [vm_compute; reflexivity|reflexivity..]);
    destruct (C3_polling str_simple queue_server cfg0 world0 (JInt 42)
                2 0 w w2 _ _ _ eq_refl Hc Hp) as (Hfin & _);
    destruct (Hfin eq_refl) as (_ & Hrun & _);
    change (2 + 1)%nat with 3%nat in Hrun; rewrite Hrun;
    vm_compute; reflexivity.
  - pose (w := snd (_runOnJobQueue_submit str_simple deleted_job_server
                      cfg0 world0)).
    assert (Hp : poll_returns str_simple deleted_job_server cfg0 status_url w
                   (JDict {[ "status" := JStr "deleted" ]}) (JStr "deleted")
                   (polled str_simple deleted_job_server cfg0 status_url
                      (JStr "deleted") w))
      by (eapply poll_returns_intro; [vm_compute; reflexivity|reflexivity..]).
    destruct (C3_polling str_simple deleted_job_server cfg0 world0 (JInt 42)
                0 0 w w _ _ _ eq_refl
                (cycles_O str_simple deleted_job_server cfg0 status_url
                   (JInt 42) w) Hp) as (_ & Hdel & _).
    destruct (Hdel eq_refl) as [_ Hrun].
    change (0 + 1)%nat with 1%nat in Hrun. rewrite Hrun. reflexivity.
  - pose (w := snd (_runOnJobQueue_submit str_simple errored_job_server
                      cfg0 world0)).
    assert (Hp : poll_returns str_simple errored_job_server cfg0 status_url w
                   (JDict failed_job) (JStr "error")
                   (polled str_simple errored_job_server cfg0 status_url
                      (JStr "error") w))
      by (eapply poll_returns_intro; [vm_compute; reflexivity|reflexivity..]).
    destruct (C3_polling str_simple errored_job_server cfg0 world0 (JInt 42)
                0 0 w w _ _ _ eq_refl
                (cycles_O str_simple errored_job_server cfg0 status_url
                   (JInt 42) w) Hp) as (_ & _ & Herr & _).
    destruct (Herr eq_refl failed_job (JStr "Out of memory") eq_refl eq_refl)
      as [_ Hrun].
    change (0 + 1)%nat with 1%nat in Hrun. rewrite Hrun. reflexivity.
Defined.



(** C7, as stated, fails on a status answer with the body [{}]: the
    loop ends at its first poll, in [KeyError], though no poll got a
    terminal status and no transport call failed. *)
Lemma C7_counterexample :
  ~ ends_on_status_or_transport str_simple (always (ok_json ∅)) cfg0
      status_url (JInt 42) world0.
Proof.
  intros [Hends _].
  assert (Hfetch : forall w,
            exists w1,
              _fetch str_simple (always (ok_json ∅)) cfg0
                "GET" status_url 0 None w
              = (Ok {| status := 200; content := "<json>";
                       json_body := Some (JDict ∅) |}, w1)).
  { intros w. eexists. apply _fetch_success; [reflexivity|simpl; lia]. }
  assert (Hnone : forall w json status w1,
            ~ poll_returns str_simple (always (ok_json ∅)) cfg0
                status_url w json status w1).
  { intros w json status w1 (resp & w0 & Hf & Hb & Hs & _).
    destruct (Hfetch w) as [w' Hw]. rewrite Hw in Hf.
    inversion Hf; subst. simpl in Hb. inversion Hb; subst.
    simpl in Hs. rewrite lookup_empty in Hs. discriminate. }
  destruct Hends as (n & w' & Hc & Hs).
  - exists 1%nat. vm_compute. discriminate.
  - destruct Hs as [(json & status & w1 & Hp & _)|(e & w1 & Hf)].
    + exact (Hnone _ _ _ _ Hp).
    + destruct (Hfetch w') as [w2 Hw]. rewrite Hw in Hf. discriminate.
Qed.

(** A statement whose query is refused with the sentinel runs its block
    on the result of the job; one refused with another message ends
    with that message, its block never run; one served at once ends as
    its block does. *)
Lemma with_query_outcomes_witness :
  with_query str_simple escalating_server cfg0 3
    (fun response => ret (content response)) world0
  = (Some (Ok "result"),
     snd (_runOnJobQueue str_simple escalating_server cfg0 3
            (snd (direct str_simple escalating_server cfg0 world0))))
  /\ with_query str_simple (always (bad_request "X")) cfg0 3
       (fun response => ret (content response)) world0
     = (Some (Raise (ApiError (JStr "X"))),
        snd (direct str_simple (always (bad_request "X")) cfg0 world0))
  /\ with_query str_simple served_then_queue_server cfg0 3
       (fun response => ret (content response)) world0
     = (Some (Ok "rows"),
        snd (direct str_simple served_then_queue_server cfg0 world0)).
Proof.
  split; [|split].
  - destruct (with_query_outcomes str_simple escalating_server cfg0 3
                (fun response => ret (content response)) world0)
      as (Hesc & _).
    rewrite Hesc by (vm_compute; reflexivity).
    vm_compute. reflexivity.
  - destruct (with_query_outcomes str_simple (always (bad_request "X")) cfg0 3
                (fun response => ret (content response)) world0)
      as (_ & Herr & _).
    apply Herr; [vm_compute; reflexivity|discriminate].
  - destruct (with_query_outcomes str_simple served_then_queue_server cfg0 3
                (fun response => ret (content response)) world0)
      as (_ & _ & Hok).
    destruct (Hok rows) as [Hb _]; [vm_compute; reflexivity|].
    rewrite Hb by (vm_compute; discriminate).
    vm_compute. reflexivity.
Defined.

(** A query that is refused with the sentinel becomes the job-queue run,
    and one run is started; a query refused with another message ends
    with that [ApiError], and no run is started. *)
Lemma query_handover_iff_sentinel_witness :
  query str_simple escalating_server cfg0 3 world0
  = _runOnJobQueue str_simple escalating_server cfg0 3
      (snd (direct str_simple escalating_server cfg0 world0))
  /\ query str_simple (always (bad_request "X")) cfg0 3 world0
     = (Some (Raise (ApiError (JStr "X"))),
        snd (direct str_simple (always (bad_request "X")) cfg0 world0))
  /\ job_queue_runs
       (trace (snd (query str_simple (always (bad_request "X")) cfg0 3 world0)))
     = 0%nat.
Proof.
  destruct (query_handover_iff_sentinel str_simple escalating_server cfg0
              3 world0) as (Hesc & _).
  destruct (query_handover_iff_sentinel str_simple (always (bad_request "X"))
              cfg0 3 world0) as (_ & Hno & _ & Hruns).
  assert (Hne : fst (direct str_simple (always (bad_request "X")) cfg0 world0)
                <> Raise (ApiError (JStr sentinel)))
    by (vm_compute; discriminate).
  split; [apply Hesc; vm_compute; reflexivity|].
  split; [exact (Hno Hne)|]. exact (proj2 Hruns Hne).
Defined.

(** The submit of [queue_server] stores the flag, POSTs the flagged
    dictionary once and yields the job id 42; against a server that is
    always busy, and against one whose answer has no [id], the run
    fails in the world its transport call left. *)
Lemma C6_witness :
  fst (_runOnJobQueue_submit str_simple queue_server cfg0 world0)
  = Ok (JInt 42)
  /\ requests
       (trace (snd (_runOnJobQueue_submit str_simple queue_server cfg0 world0)))
     = [ request_of "POST" query_url
           (Some (JDict (<["runOnJobQueue" := JBool true]> (params world0)))) ]
  /\ params (snd (_runOnJobQueue_submit str_simple queue_server cfg0 world0))
     = <["runOnJobQueue" := JBool true]> (params world0)
  /\ fst (_runOnJobQueue str_simple (always busy) cfg0 3 world0)
     = Some (Raise (UnexpectedError "Service Unavailable"))
  /\ exists e,
       fst (_runOnJobQueue str_simple (always (ok_json ∅)) cfg0 3 world0)
       = Some (Raise e).
Proof.
  split; [|split; [|split; [|split]]].
  - destruct (C6_submit str_simple queue_server cfg0 3 world0)
      as (_ & _ & _ & _ & Hid & _).
    rewrite (Hid {| status := 200; content := "<json>";
                    json_body := Some (JDict {[ "id" := JInt 42 ]}) |}
               {[ "id" := JInt 42 ]} (JInt 42));
      [reflexivity|vm_compute; reflexivity|reflexivity..].
  - destruct (C6_submit str_simple queue_server cfg0 3 world0)
      as (_ & _ & _ & _ & Hid & _).
    rewrite (Hid {| status := 200; content := "<json>";
                    json_body := Some (JDict {[ "id" := JInt 42 ]}) |}
               {[ "id" := JInt 42 ]} (JInt 42));
      [vm_compute; reflexivity|vm_compute; reflexivity|reflexivity..].
  - apply (C6_submit str_simple queue_server cfg0 3 world0).
  - destruct (C6_submit str_simple (always busy) cfg0 3 world0)
      as (_ & _ & _ & _ & _ & Hfail & _).
    destruct (Hfail (UnexpectedError "Service Unavailable")) as [_ Hrun];
      [vm_compute; reflexivity|].
    rewrite Hrun. reflexivity.
  - destruct (C6_submit str_simple (always (ok_json ∅)) cfg0 3 world0)
      as (_ & _ & _ & _ & _ & _ & Hnoid & _).
    destruct (Hnoid {| status := 200; content := "<json>";
                       json_body := Some (JDict ∅) |}) as (e & _ & He).
    + vm_compute. reflexivity.
    + intros d jobId Hb. inversion Hb. subst. rewrite lookup_empty.
      discriminate.
    + exists e. rewrite He. reflexivity.
Defined.

(** A job that is pending for ever is polled for ever; a job found
    finished at the first poll ends the loop. *)
Lemma C7_witness :
  fst (while_true 1000
         (_runOnJobQueue_poll str_simple (always (status_is "pending")) cfg0
            status_url (JInt 42)) world0)
  = None
  /\ loop_terminates str_simple (always (status_is "finished")) cfg0
       status_url (JInt 42) world0.
Proof.
  split.
  - apply (C7_loop_unbounded str_simple (always (status_is "pending")) cfg0
             status_url (JInt 42) world0).
    assert (Hpoll : forall w,
              poll_returns str_simple (always (status_is "pending")) cfg0
                status_url w (JDict {[ "status" := JStr "pending" ]})
                (JStr "pending")
                (polled str_simple (always (status_is "pending")) cfg0
                   status_url (JStr "pending") w)).
    { intros w.
      apply (poll_returns_intro str_simple (always (status_is "pending")) cfg0
               status_url w
               {| status := 200; content := "<json>";
                  json_body := Some (JDict {[ "status" := JStr "pending" ]}) |});
        [|reflexivity..].
      erewrite _fetch_success; [reflexivity|reflexivity|simpl; lia]. }
    intros n. induction n as [|n [w' IH]].
    + exists world0. apply cycles_O.
    + eexists. eapply cycles_snoc; [exact IH|apply Hpoll|reflexivity].
  - apply (C7_loop_unbounded str_simple (always (status_is "finished")) cfg0
             status_url (JInt 42) world0).
    exists 0%nat, world0. split; [apply cycles_O|]. left.
    eexists _, (JStr "finished"), _. split; [|reflexivity].
    eapply poll_returns_intro; [vm_compute; reflexivity|reflexivity..].
Defined.


(** [asProtobuf] on a query that escalates leaves both entries in the
    caller's dictionary. *)
Lemma C10_witness :
  params (snd (asProtobuf str_simple escalating_server cfg0
                 (fun data => Some data) 3 world0))
  = <["runOnJobQueue" := JBool true]>
      (<["format" := JStr "protobuf"]> (params world0)).
Proof.
  apply (C10_params_changed_in_place str_simple escalating_server cfg0
           (fun data => Some data) 3 world0).
  vm_compute. reflexivity.
Defined.

(** ** Scenarios *)

(** The query succeeds directly: no retry, no poll, dictionary untouched. *)
Example scenario_direct :
  let r := query str_simple (always (http 200 "rows" None)) cfg0 0 world0 in
  fst r = Some (Ok {| status := 200; content := "rows"; json_body := None |})
  /\ length (requests (trace (snd r))) = 1%nat
  /\ sleeps (trace (snd r)) = []
  /\ params (snd r) = params world0.
Proof. vm_compute. auto. Qed.

(** 503 twice, then 200: two retries, two seconds slept. *)
Example scenario_two_retries :
  let r := query str_simple (scripted [busy; busy; http 200 "rows" None])
             cfg0 0 world0 in
  fst r = Some (Ok {| status := 200; content := "rows"; json_body := None |})
  /\ length (requests (trace (snd r))) = 3%nat
  /\ sleeps (trace (snd r)) = [1; 1].
Proof. vm_compute. auto. Qed.

(** The sentinel, then submit, two polls finding the job running, one
    finding it finished, and the fetch. *)
Example scenario_escalation :
  let r := query str_simple escalating_server cfg0 3 world0 in
  fst r = Some (Ok {| status := 200; content := "result"; json_body := None |})
  /\ map req_method (requests (trace (snd r)))
     = ["POST"; "POST"; "GET"; "GET"; "GET"; "GET"]
  /\ sleeps (trace (snd r)) = [5; 5]
  /\ job_queue_runs (trace (snd r)) = 1%nat
  /\ params (snd r) !! "runOnJobQueue" = Some (JBool true).
Proof. vm_compute. auto. Qed.

(** With fuel for two rounds only, the same run is still polling. *)
Example scenario_still_polling :
  fst (query str_simple escalating_server cfg0 2 world0) = None.
Proof. vm_compute. reflexivity. Qed.

(** The first poll reports an error: the result is never fetched. *)
Example scenario_job_error :
  let r := query str_simple failing_job_server cfg0 1 world0 in
  fst r = Some (Raise (ApiError (JStr "Out of memory")))
  /\ map req_method (requests (trace (snd r))) = ["POST"; "POST"; "GET"].
Proof. vm_compute. auto. Qed.

(** The submit itself is refused with the sentinel: the error reaches
    the caller, and one job-queue run was started, not two. *)
Example scenario_sentinel_twice :
  let r := query str_simple (always must_queue) cfg0 1 world0 in
  fst r = Some (Raise (ApiError (JStr sentinel)))
  /\ length (requests (trace (snd r))) = 2%nat
  /\ job_queue_runs (trace (snd r)) = 1%nat.
Proof. vm_compute. auto. Qed.

(** [asProtobuf] on a query that escalates: both entries are in the
    caller's dictionary afterwards. *)
Example scenario_asProtobuf :
  let r := asProtobuf str_simple escalating_server cfg0
             (fun data => Some data) 3 world0 in
  fst r = Some (Ok "result")
  /\ params (snd r)
     = <["runOnJobQueue" := JBool true]>
         (<["format" := JStr "protobuf"]> (params world0)).
Proof. vm_compute. auto. Qed.

(** ** The further properties at work *)

Lemma fetch_2xx_returns_witness :
  fst (_fetch str_simple (always (Responded rows)) cfg0
         "GET" status_url 7 None world0) = Ok rows.
Proof.
  apply (fetch_2xx_returns str_simple (always (Responded rows)) cfg0
           "GET" status_url 7 None world0 rows eq_refl).
  simpl. lia.
Defined.

Lemma fetch_other_status_fails_witness :
  fst (_fetch str_simple (always not_found) cfg0
         "GET" status_url 0 None world0)
  = Raise (UnexpectedError "Not Found").
Proof.
  apply (fetch_other_status_fails str_simple (always not_found) cfg0
           "GET" status_url 0 None world0 _ eq_refl).
  - simpl. lia.
  - unfold retryable. simpl. lia.
  - simpl. lia.
Defined.

Lemma connection_failure_propagates_witness :
  fst (query str_simple (always (Failed "connection refused")) cfg0 3 world0)
  = Some (Raise (ClientError "connection refused")).
Proof.
  apply (connection_failure_propagates str_simple
           (always (Failed "connection refused")) cfg0 3 world0
           "connection refused" eq_refl).
Defined.

Lemma fetch_retries_exhausted_witness :
  sleeps (trace (snd (_fetch str_simple (always busy) cfg0
                        "GET" status_url 0 None world0)))
  = [1; 1; 1; 1; 1].
Proof.
  apply (fetch_retries_exhausted str_simple (always busy) cfg0
           {| status := 503; content := "Service Unavailable";
              json_body := None |}
           "GET" status_url 0 None world0).
  - reflexivity.
  - right. simpl. lia.
Defined.

Lemma fetch_recovers_witness :
  fst (_fetch str_simple (scripted [busy; busy; Responded rows]) cfg0
         "GET" status_url 0 None world0) = Ok rows.
Proof.
  apply (fetch_recovers str_simple (scripted [busy; busy; Responded rows])
           cfg0 [busy; busy; Responded rows]
           [ {| status := 503; content := "Service Unavailable";
                json_body := None |};
             {| status := 503; content := "Service Unavailable";
                json_body := None |} ]
           rows [] "GET" status_url None world0).
  - intros t r. reflexivity.
  - reflexivity.
  - reflexivity.
  - constructor; [right; simpl; lia|].
    constructor; [right; simpl; lia|]. constructor.
  - simpl. lia.
  - simpl. lia.
Defined.

Lemma query_direct_success_witness :
  fst (query str_simple (always (Responded rows)) cfg0 0 world0)
  = Some (Ok rows).
Proof.
  apply (query_direct_success str_simple (always (Responded rows)) cfg0
           0 world0 rows eq_refl).
  simpl. lia.
Defined.

Lemma escalation_resubmits_params_witness :
  exists rest,
    requests (trace (snd (query str_simple escalating_server cfg0 3 world0)))
    = requests (trace (snd (direct str_simple escalating_server cfg0 world0)))
      ++ request_of "POST" query_url
           (Some (JDict (<["runOnJobQueue" := JBool true]> (params world0))))
         :: rest.
Proof.
  apply (escalation_resubmits_params str_simple escalating_server cfg0
           3 world0).
  vm_compute. reflexivity.
Defined.

Lemma flag_sent_by_next_query_witness :
  exists rest,
    requests
      (trace (snd (query str_simple escalating_server cfg0 3
                     (snd (query str_simple escalating_server cfg0 3 world0)))))
    = requests (trace (snd (query str_simple escalating_server cfg0 3 world0)))
      ++ request_of "POST" query_url
           (Some (JDict (<["runOnJobQueue" := JBool true]> (params world0))))
         :: rest.
Proof.
  apply (flag_sent_by_next_query str_simple escalating_server cfg0
           3 3 world0).
  vm_compute. reflexivity.
Defined.

Lemma run_returns_only_after_finished_witness :
  exists jobId w1 n w' json w2,
    _runOnJobQueue_submit str_simple queue_server cfg0 world0 = (Ok jobId, w1)
    /\ (n < 3)%nat
    /\ poll_sleep_cycles str_simple queue_server cfg0
         (pct_s (statusUrl cfg0) (str_simple jobId)) jobId n w1 w'
    /\ poll_returns str_simple queue_server cfg0
         (pct_s (statusUrl cfg0) (str_simple jobId)) w' json
         (JStr "finished") w2
    /\ _runOnJobQueue_result str_simple queue_server cfg0 jobId w2
       = (Ok {| status := 200; content := "result"; json_body := None |},
          snd (_runOnJobQueue str_simple queue_server cfg0 3 world0)).
Proof.
  apply (run_returns_only_after_finished str_simple queue_server cfg0
           3 world0).
  vm_compute. reflexivity.
Defined.
